(** * tauri-benchmark-suite: the front-end session mirror, verified

    A shallow embedding of the TypeScript front end of the benchmark suite:

    - [services/tauri-api.ts]: [TauriApiService] (thin wrappers around the
      IPC [invoke]), [handleTauriError] and [EventListenerManager];
    - [composables/useBenchmark.ts]: the reactive state of one benchmark
      view, the session-control operations and the seven event handlers;
    - [stores/index.ts]: the configuration store and [updateConfig];
    - [types/index.ts]: the payload interfaces.

    Conventions of the embedding.

    - A JavaScript value of static type [any] (a rejection reason, the
      payload of a result slot, a configuration object) is a [JsVal]; an
      object is a finite map from property names to values.
    - A JavaScript [number] is a rational [Qc]: the code stores and compares
      numbers and never computes with them; NaN and the infinities are left
      out.
    - A promise that has settled is a [Settled A]: fulfilled with a value or
      rejected with a reason.  The Rust back end is not part of the front
      end: it is an argument, a function from commands to settled promises.
      A back end whose answers change over time is a different function at
      each call.
    - Reactive refs are the fields of a state record; an operation is a
      function from the state before the call to the state after it and the
      settled promise handed to the caller.  An operation runs to its end
      before the next action starts: an event that arrives between a command
      and its answer is ordered before or after the whole operation.
      [console.error] writes to the developer console only and is not part
      of the state. *)

From Stdlib Require Import QArith Qcanon.
From stdpp Require Import gmap strings list fin_maps numbers.
From stdpp Require pretty.

#[local] Set Warnings "-register-all".
#[local] Open Scope string_scope.
#[local] Open Scope nat_scope.

(** ** JavaScript values

    Values are plain data, as they cross the IPC boundary or are written as
    object literals: an object has own data properties only (no accessors,
    no prototype chain to look through). *)

Inductive JsVal : Type :=
  | JsUndefined
  | JsNull
  | JsBool (b : bool)
  | JsNumber (n : Qc)
  | JsString (s : string)
  | JsObject (props : gmap string JsVal).

(** [ToBoolean]: [undefined], [null], [false], [0] and the empty string are
    falsy, every other value is truthy. *)
Definition truthy (v : JsVal) : bool :=
  match v with
  | JsUndefined | JsNull => false
  | JsBool b => b
  | JsNumber n => bool_decide (n ≠ 0%Qc)
  | JsString s => bool_decide (s ≠ "")
  | JsObject _ => true
  end.

Definition is_string (v : JsVal) : bool :=
  match v with JsString _ => true | _ => false end.

(** [v?.k] for a property [k] that no primitive wrapper defines (such as
    [message]): [undefined] on [null], [undefined] and on primitives, the
    stored value on an object that has the property. *)
Definition opt_get (v : JsVal) (k : string) : JsVal :=
  match v with
  | JsObject props => default JsUndefined (props !! k)
  | _ => JsUndefined
  end.

(** [o || d] for an optional string [o]. *)
Definition str_or (o : option string) (d : string) : string :=
  match o with
  | Some s => if bool_decide (s = "") then d else s
  | None => d
  end.

(** [o || null] for an optional number [o]. *)
Definition num_or_null (o : option Qc) : option Qc :=
  match o with
  | Some n => if bool_decide (n = 0%Qc) then None else Some n
  | None => None
  end.

(** [{ ...a, ...b }]: the own properties of [a], overridden by those of [b]. *)
Definition spread2 (a b : gmap string JsVal) : gmap string JsVal := b ∪ a.

(** [l.slice(-n)]: the last [n] elements, the whole list when it is shorter. *)
Definition slice_last {A} (n : nat) (l : list A) : list A :=
  drop (length l - n) l.

(** [l.push(x)]. *)
Definition push {A} (l : list A) (x : A) : list A := l ++ [x].

(** ** Settled promises *)

Inductive Settled (A : Type) : Type :=
  | Fulfilled (value : A)
  | Rejected (reason : JsVal).
Arguments Fulfilled {A} value.
Arguments Rejected {A} reason.

Definition is_rejected {A} (p : Settled A) : bool :=
  match p with Rejected _ => true | Fulfilled _ => false end.

(** ** Payload interfaces ([types/index.ts]) *)

Inductive TestStatus : Type := Pending | Running | Completed | Failed | Cancelled.

#[global] Instance TestStatus_eq_dec : EqDecision TestStatus :=
  ltac:(solve_decision).

Inductive WarningSeverity : Type := Low | Medium | High | Critical.

Module BenchmarkProgress.
Record t : Type := mk {
  session_id : string;
  current_test : string;
  overall_progress : Qc;
  test_progress : Qc;
  message : string;
  estimated_time_remaining : option Qc
}.
End BenchmarkProgress.

Module SystemMonitoringData.
Record t : Type := mk {
  cpu_usage : Qc;
  memory_usage : Qc;
  temperature : option Qc;
  timestamp : string
}.
End SystemMonitoringData.

Module TestSession.
Record t : Type := mk {
  session_id : string;
  status : TestStatus;
  start_time : string;
  end_time : option string;
  config : option JsVal
}.
End TestSession.

Module RealTimePerformanceData.
Record t : Type := mk {
  session_id : string;
  test_type : string;
  metrics : gmap string Qc;
  timestamp : string
}.
End RealTimePerformanceData.

Module TestWarningEvent.
Record t : Type := mk {
  session_id : string;
  test_type : string;
  warning_type : string;
  message : string;
  severity : WarningSeverity
}.
End TestWarningEvent.

Module TestCompleteEvent.
Record t : Type := mk {
  session_id : string;
  test_type : string;
  success : bool;
  result : JsVal;
  error : option string
}.
End TestCompleteEvent.

(** [TestResults] and [SystemInfo] are stored and handed on whole; the front
    end's logic only asks whether a [results] slot is present. *)
Module TestResults.
Record t : Type := mk {
  timestamp : string;
  systemInfo : JsVal;
  cpuResults : option JsVal;
  memoryResults : option JsVal;
  storageResults : option JsVal;
  overallScore : Qc
}.
End TestResults.

Module BenchmarkSuiteCompleteEvent.
Record t : Type := mk {
  session_id : string;
  success : bool;
  results : option TestResults.t;
  error : option string
}.
End BenchmarkSuiteCompleteEvent.

(** ** The service layer ([services/tauri-api.ts]) *)

(** The commands of the back end that the front end invokes, indexed by the
    type of their answer. *)
Inductive Command : Type → Type :=
  | get_system_info : Command JsVal
  | start_benchmark_suite (config : JsVal) : Command string
  | cancel_benchmark (sessionId : string) : Command unit
  | get_test_status (sessionId : string) : Command TestStatus
  | get_all_test_sessions : Command (list TestSession.t)
  | get_system_monitoring_data : Command SystemMonitoringData.t
  | cleanup_completed_sessions : Command Qc
  | pause_benchmark (sessionId : string) : Command unit
  | resume_benchmark (sessionId : string) : Command unit
  | run_cpu_benchmark (config : JsVal) : Command JsVal
  | run_memory_benchmark (config : JsVal) : Command JsVal
  | run_storage_benchmark (config : JsVal) : Command JsVal.

(** [invoke]: how the back end settles each command. *)
Definition Backend : Type := ∀ A, Command A → Settled A.

Module TauriApiService.
Section Service.
Variable invoke : Backend.

Definition getSystemInfo : Settled JsVal := invoke _ get_system_info.
Definition startBenchmarkSuite (config : JsVal) : Settled string :=
  invoke _ (start_benchmark_suite config).
Definition cancelBenchmark (sessionId : string) : Settled unit :=
  invoke _ (cancel_benchmark sessionId).
Definition getTestStatus (sessionId : string) : Settled TestStatus :=
  invoke _ (get_test_status sessionId).
Definition getAllTestSessions : Settled (list TestSession.t) :=
  invoke _ get_all_test_sessions.
Definition getSystemMonitoringData : Settled SystemMonitoringData.t :=
  invoke _ get_system_monitoring_data.
Definition cleanupCompletedSessions : Settled Qc :=
  invoke _ cleanup_completed_sessions.
Definition pauseBenchmark (sessionId : string) : Settled unit :=
  invoke _ (pause_benchmark sessionId).
Definition resumeBenchmark (sessionId : string) : Settled unit :=
  invoke _ (resume_benchmark sessionId).
Definition runCpuBenchmark (config : JsVal) : Settled JsVal :=
  invoke _ (run_cpu_benchmark config).
Definition runMemoryBenchmark (config : JsVal) : Settled JsVal :=
  invoke _ (run_memory_benchmark config).
Definition runStorageBenchmark (config : JsVal) : Settled JsVal :=
  invoke _ (run_storage_benchmark config).
End Service.
End TauriApiService.

(** [handleTauriError(error: any)]: the declared result type is [string],
    but nothing converts [error.message], so the result is a [JsVal]. *)
Definition handleTauriError (error : JsVal) : JsVal :=
  match error with
  | JsString s => JsString s
  | _ =>
      if truthy (opt_get error "message") then opt_get error "message"
      else JsString "未知错误"
  end.

(** The names of the events the front end listens to. *)
Inductive EventName : Type :=
  | benchmark_progress
  | system_monitoring
  | real_time_performance
  | test_warning
  | test_complete
  | benchmark_complete
  | test_error.

#[global] Instance EventName_eq_dec : EqDecision EventName :=
  ltac:(solve_decision).

(** An event as the back end emits it: its name and its payload. *)
Inductive Event : Type :=
  | BenchmarkProgressEvent (data : BenchmarkProgress.t)
  | SystemMonitoringEvent (data : SystemMonitoringData.t)
  | RealTimePerformanceEvent (data : RealTimePerformanceData.t)
  | TestWarning (data : TestWarningEvent.t)
  | TestComplete (data : TestCompleteEvent.t)
  | BenchmarkComplete (data : BenchmarkSuiteCompleteEvent.t)
  | TestError (data : TestCompleteEvent.t).

Definition event_name (ev : Event) : EventName :=
  match ev with
  | BenchmarkProgressEvent _ => benchmark_progress
  | SystemMonitoringEvent _ => system_monitoring
  | RealTimePerformanceEvent _ => real_time_performance
  | TestWarning _ => test_warning
  | TestComplete _ => test_complete
  | BenchmarkComplete _ => benchmark_complete
  | TestError _ => test_error
  end.

(** [EventListenerManager]: one entry per registered listener, in the order
    of registration.  A listener is identified by the name of its event; the
    callback it runs is the handler the composable registers for that name. *)
Module EventListenerManager.
Definition t : Type := list EventName.
Definition empty : t := [].
Definition addListener (m : t) (eventName : EventName) : t := push m eventName.
Definition removeAllListeners (m : t) : t := [].
End EventListenerManager.

(** ** The composable ([composables/useBenchmark.ts]) *)

Module useBenchmark.

(** The reactive [progress] object. *)
Record Progress : Type := mkProgress {
  overall : Qc;
  current : Qc;
  currentTest : string;
  message : string;
  estimatedTimeRemaining : option Qc
}.

(** The reactive state of one call of [useBenchmark()].  [error] holds what
    [handleTauriError] returned, hence a [JsVal]; [JsNull] is [null]. *)
Record State : Type := mkState {
  systemInfo : option JsVal;
  currentSession : option string;
  testStatus : TestStatus;
  testResults : option TestResults.t;
  allSessions : list TestSession.t;
  isLoading : bool;
  error : JsVal;
  progress : Progress;
  monitoringData : option SystemMonitoringData.t;
  performanceData : list RealTimePerformanceData.t;
  warnings : list TestWarningEvent.t;
  eventManager : EventListenerManager.t
}.

(** The state right after [useBenchmark()] has run. *)
Definition init : State :=
  {| systemInfo := None; currentSession := None; testStatus := Pending;
     testResults := None; allSessions := []; isLoading := false;
     error := JsNull;
     progress := mkProgress 0 0 "" "" None;
     monitoringData := None; performanceData := []; warnings := [];
     eventManager := EventListenerManager.empty |}.

(** Assignments to the refs. *)
Definition set_systemInfo v s :=
  mkState v (currentSession s) (testStatus s) (testResults s) (allSessions s)
    (isLoading s) (error s) (progress s) (monitoringData s) (performanceData s)
    (warnings s) (eventManager s).
Definition set_currentSession v s :=
  mkState (systemInfo s) v (testStatus s) (testResults s) (allSessions s)
    (isLoading s) (error s) (progress s) (monitoringData s) (performanceData s)
    (warnings s) (eventManager s).
Definition set_testStatus v s :=
  mkState (systemInfo s) (currentSession s) v (testResults s) (allSessions s)
    (isLoading s) (error s) (progress s) (monitoringData s) (performanceData s)
    (warnings s) (eventManager s).
Definition set_testResults v s :=
  mkState (systemInfo s) (currentSession s) (testStatus s) v (allSessions s)
    (isLoading s) (error s) (progress s) (monitoringData s) (performanceData s)
    (warnings s) (eventManager s).
Definition set_allSessions v s :=
  mkState (systemInfo s) (currentSession s) (testStatus s) (testResults s) v
    (isLoading s) (error s) (progress s) (monitoringData s) (performanceData s)
    (warnings s) (eventManager s).
Definition set_isLoading v s :=
  mkState (systemInfo s) (currentSession s) (testStatus s) (testResults s)
    (allSessions s) v (error s) (progress s) (monitoringData s)
    (performanceData s) (warnings s) (eventManager s).
Definition set_error v s :=
  mkState (systemInfo s) (currentSession s) (testStatus s) (testResults s)
    (allSessions s) (isLoading s) v (progress s) (monitoringData s)
    (performanceData s) (warnings s) (eventManager s).
Definition set_progress v s :=
  mkState (systemInfo s) (currentSession s) (testStatus s) (testResults s)
    (allSessions s) (isLoading s) (error s) v (monitoringData s)
    (performanceData s) (warnings s) (eventManager s).
Definition set_monitoringData v s :=
  mkState (systemInfo s) (currentSession s) (testStatus s) (testResults s)
    (allSessions s) (isLoading s) (error s) (progress s) v (performanceData s)
    (warnings s) (eventManager s).
Definition set_performanceData v s :=
  mkState (systemInfo s) (currentSession s) (testStatus s) (testResults s)
    (allSessions s) (isLoading s) (error s) (progress s) (monitoringData s) v
    (warnings s) (eventManager s).
Definition set_warnings v s :=
  mkState (systemInfo s) (currentSession s) (testStatus s) (testResults s)
    (allSessions s) (isLoading s) (error s) (progress s) (monitoringData s)
    (performanceData s) v (eventManager s).
Definition set_eventManager v s :=
  mkState (systemInfo s) (currentSession s) (testStatus s) (testResults s)
    (allSessions s) (isLoading s) (error s) (progress s) (monitoringData s)
    (performanceData s) (warnings s) v.

(** Assignments to the fields of [progress]. *)
Definition set_overall v s :=
  set_progress (mkProgress v (current (progress s)) (currentTest (progress s))
    (message (progress s)) (estimatedTimeRemaining (progress s))) s.
Definition set_current v s :=
  set_progress (mkProgress (overall (progress s)) v (currentTest (progress s))
    (message (progress s)) (estimatedTimeRemaining (progress s))) s.
Definition set_currentTest v s :=
  set_progress (mkProgress (overall (progress s)) (current (progress s)) v
    (message (progress s)) (estimatedTimeRemaining (progress s))) s.
Definition set_message v s :=
  set_progress (mkProgress (overall (progress s)) (current (progress s))
    (currentTest (progress s)) v (estimatedTimeRemaining (progress s))) s.
Definition set_estimatedTimeRemaining v s :=
  set_progress (mkProgress (overall (progress s)) (current (progress s))
    (currentTest (progress s)) (message (progress s)) v) s.

(** Statements in sequence: [s |> f |> g] runs [f], then [g]. *)
Notation "s |> f" := (f s) (at level 61, left associativity, only parsing).

(** The computed flags. *)
Definition isRunning (s : State) : bool := bool_decide (testStatus s = Running).
Definition isCompleted (s : State) : bool := bool_decide (testStatus s = Completed).
Definition isFailed (s : State) : bool := bool_decide (testStatus s = Failed).
Definition isCancelled (s : State) : bool := bool_decide (testStatus s = Cancelled).

(** [currentSession.value] when it is truthy: neither [null] nor empty. *)
Definition truthy_session (s : State) : option string :=
  match currentSession s with
  | Some sid => if bool_decide (sid = "") then None else Some sid
  | None => None
  end.

(** [data.session_id === currentSession.value]. *)
Definition is_current (s : State) (session_id : string) : bool :=
  bool_decide (currentSession s = Some session_id).

(** *** Operations

    Each operation takes the answers of the back end ([invoke]) and the state
    before the call, and returns the state after the call together with the
    promise handed to the caller.  [try]/[catch]/[finally] are written out. *)

Section Operations.
Variable invoke : Backend.

Definition initializeSystemInfo (s : State) : State * Settled unit :=
  let s1 := s |> set_isLoading true |> set_error JsNull in
  match TauriApiService.getSystemInfo invoke with
  | Fulfilled info =>
      (s1 |> set_systemInfo (Some info) |> set_isLoading false, Fulfilled ())
  | Rejected err =>
      (s1 |> set_error (handleTauriError err) |> set_isLoading false,
       Fulfilled ())
  end.

(** The only operation that throws the error again after storing it. *)
Definition startBenchmarkSuite (config : JsVal) (s : State)
  : State * Settled string :=
  let s1 := s |> set_isLoading true |> set_error JsNull in
  match TauriApiService.startBenchmarkSuite invoke config with
  | Fulfilled sessionId =>
      (s1 |> set_currentSession (Some sessionId)
          |> set_testStatus Running
          |> set_overall 0 |> set_current 0 |> set_currentTest ""
          |> set_message "正在启动测试..."
          |> set_performanceData [] |> set_warnings []
          |> set_isLoading false,
       Fulfilled sessionId)
  | Rejected err =>
      (s1 |> set_error (handleTauriError err) |> set_isLoading false,
       Rejected err)
  end.

Definition cancelBenchmark (s : State) : State * Settled unit :=
  match truthy_session s with
  | None => (s, Fulfilled ())
  | Some sessionId =>
      match TauriApiService.cancelBenchmark invoke sessionId with
      | Fulfilled _ => (s |> set_testStatus Cancelled, Fulfilled ())
      | Rejected err => (s |> set_error (handleTauriError err), Fulfilled ())
      end
  end.

Definition pauseBenchmark (s : State) : State * Settled unit :=
  match truthy_session s with
  | None => (s, Fulfilled ())
  | Some sessionId =>
      match TauriApiService.pauseBenchmark invoke sessionId with
      | Fulfilled _ => (s, Fulfilled ())
      | Rejected err => (s |> set_error (handleTauriError err), Fulfilled ())
      end
  end.

Definition resumeBenchmark (s : State) : State * Settled unit :=
  match truthy_session s with
  | None => (s, Fulfilled ())
  | Some sessionId =>
      match TauriApiService.resumeBenchmark invoke sessionId with
      | Fulfilled _ => (s, Fulfilled ())
      | Rejected err => (s |> set_error (handleTauriError err), Fulfilled ())
      end
  end.

(** [sessionId || currentSession.value], when truthy. *)
Definition targetSessionId (sessionId : option string) (s : State)
  : option string :=
  match sessionId with
  | Some sid => if bool_decide (sid = "") then truthy_session s else Some sid
  | None => truthy_session s
  end.

(** The caller gets the status, or [undefined] ([None]). *)
Definition getTestStatus (sessionId : option string) (s : State)
  : State * Settled (option TestStatus) :=
  match targetSessionId sessionId s with
  | None => (s, Fulfilled None)
  | Some target =>
      match TauriApiService.getTestStatus invoke target with
      | Fulfilled status =>
          (if is_current s target then s |> set_testStatus status else s,
           Fulfilled (Some status))
      | Rejected err =>
          (s |> set_error (handleTauriError err), Fulfilled None)
      end
  end.

Definition getAllTestSessions (s : State) : State * Settled unit :=
  match TauriApiService.getAllTestSessions invoke with
  | Fulfilled sessions => (s |> set_allSessions sessions, Fulfilled ())
  | Rejected err => (s |> set_error (handleTauriError err), Fulfilled ())
  end.

Definition getSystemMonitoringData (s : State) : State * Settled unit :=
  match TauriApiService.getSystemMonitoringData invoke with
  | Fulfilled data => (s |> set_monitoringData (Some data), Fulfilled ())
  | Rejected _ => (s, Fulfilled ())
  end.

Definition cleanupCompletedSessions (s : State)
  : State * Settled (option Qc) :=
  match TauriApiService.cleanupCompletedSessions invoke with
  | Fulfilled cleanedCount =>
      ((getAllTestSessions s).1, Fulfilled (Some cleanedCount))
  | Rejected err => (s |> set_error (handleTauriError err), Fulfilled None)
  end.

End Operations.

(** *** Event handlers *)

Definition on_benchmark_progress (data : BenchmarkProgress.t) (s : State) : State :=
  if is_current s (BenchmarkProgress.session_id data) then
    s |> set_overall (BenchmarkProgress.overall_progress data)
      |> set_current (BenchmarkProgress.test_progress data)
      |> set_currentTest (BenchmarkProgress.current_test data)
      |> set_message (BenchmarkProgress.message data)
      |> set_estimatedTimeRemaining
           (num_or_null (BenchmarkProgress.estimated_time_remaining data))
  else s.

Definition on_system_monitoring (data : SystemMonitoringData.t) (s : State) : State :=
  s |> set_monitoringData (Some data).

Definition on_real_time_performance (data : RealTimePerformanceData.t) (s : State)
  : State :=
  if is_current s (RealTimePerformanceData.session_id data) then
    let s1 := s |> set_performanceData (push (performanceData s) data) in
    if bool_decide (100 < length (performanceData s1)) then
      s1 |> set_performanceData (slice_last 100 (performanceData s1))
    else s1
  else s.

Definition on_test_warning (data : TestWarningEvent.t) (s : State) : State :=
  if is_current s (TestWarningEvent.session_id data) then
    s |> set_warnings (push (warnings s) data)
  else s.

Definition on_test_complete (data : TestCompleteEvent.t) (s : State) : State :=
  if is_current s (TestCompleteEvent.session_id data) then
    if negb (TestCompleteEvent.success data) then
      s |> set_error (JsString (str_or (TestCompleteEvent.error data) "测试失败"))
        |> set_testStatus Failed
    else s
  else s.

Definition on_benchmark_complete (data : BenchmarkSuiteCompleteEvent.t) (s : State)
  : State :=
  if is_current s (BenchmarkSuiteCompleteEvent.session_id data) then
    match BenchmarkSuiteCompleteEvent.success data,
          BenchmarkSuiteCompleteEvent.results data with
    | true, Some results =>
        s |> set_testResults (Some results) |> set_testStatus Completed
    | _, _ =>
        s |> set_error
               (JsString (str_or (BenchmarkSuiteCompleteEvent.error data)
                                 "测试套件失败"))
          |> set_testStatus Failed
    end
  else s.

Definition on_test_error (data : TestCompleteEvent.t) (s : State) : State :=
  if is_current s (TestCompleteEvent.session_id data) then
    s |> set_error (JsString (str_or (TestCompleteEvent.error data) "测试出现错误"))
      |> set_testStatus Failed
  else s.

(** The callback that [setupEventListeners] registers under each name. *)
Definition handle (ev : Event) (s : State) : State :=
  match ev with
  | BenchmarkProgressEvent data => on_benchmark_progress data s
  | SystemMonitoringEvent data => on_system_monitoring data s
  | RealTimePerformanceEvent data => on_real_time_performance data s
  | TestWarning data => on_test_warning data s
  | TestComplete data => on_test_complete data s
  | BenchmarkComplete data => on_benchmark_complete data s
  | TestError data => on_test_error data s
  end.

(** The seven [addListener] calls, in the order of the source. *)
Definition listened_events : list EventName :=
  [benchmark_progress; system_monitoring; real_time_performance; test_warning;
   test_complete; benchmark_complete; test_error].

(** [setupEventListeners]: the calls are awaited one after the other inside
    one [try]; [registered] is the number of them that succeed before the
    first one that fails (7 or more: all succeed). *)
Definition setupEventListeners (registered : nat) (s : State) : State :=
  s |> set_eventManager
         (foldl EventListenerManager.addListener (eventManager s)
                (take registered listened_events)).

(** The back end emits [ev]: every listener registered under its name runs
    its callback, in the order of registration. *)
Definition deliver (ev : Event) (s : State) : State :=
  foldl (λ s' name, if bool_decide (name = event_name ev) then handle ev s' else s')
        s (eventManager s).

Definition cleanup (s : State) : State :=
  s |> set_eventManager (EventListenerManager.removeAllListeners (eventManager s))
    |> set_currentSession None
    |> set_testStatus Pending
    |> set_testResults None
    |> set_error JsNull
    |> set_overall 0 |> set_current 0 |> set_currentTest "" |> set_message ""
    |> set_performanceData [] |> set_warnings [].

(** *** Histories

    What can happen to one [useBenchmark()] instance: the component calls an
    operation (and the back end answers each of its commands), or the back
    end emits an event. *)

Inductive Operation : Type :=
  | InitializeSystemInfo
  | StartBenchmarkSuite (config : JsVal)
  | CancelBenchmark
  | PauseBenchmark
  | ResumeBenchmark
  | GetTestStatus (sessionId : option string)
  | GetAllTestSessions
  | GetSystemMonitoringData
  | CleanupCompletedSessions
  | SetupEventListeners (registered : nat)
  | Cleanup.

Inductive Action : Type :=
  | Call (invoke : Backend) (op : Operation)
  | Emit (ev : Event).

Definition call (invoke : Backend) (op : Operation) (s : State) : State :=
  match op with
  | InitializeSystemInfo => (initializeSystemInfo invoke s).1
  | StartBenchmarkSuite config => (startBenchmarkSuite invoke config s).1
  | CancelBenchmark => (cancelBenchmark invoke s).1
  | PauseBenchmark => (pauseBenchmark invoke s).1
  | ResumeBenchmark => (resumeBenchmark invoke s).1
  | GetTestStatus sessionId => (getTestStatus invoke sessionId s).1
  | GetAllTestSessions => (getAllTestSessions invoke s).1
  | GetSystemMonitoringData => (getSystemMonitoringData invoke s).1
  | CleanupCompletedSessions => (cleanupCompletedSessions invoke s).1
  | SetupEventListeners registered => setupEventListeners registered s
  | Cleanup => cleanup s
  end.

Definition step (a : Action) (s : State) : State :=
  match a with
  | Call invoke op => call invoke op s
  | Emit ev => deliver ev s
  end.

Definition run (history : list Action) (s : State) : State :=
  foldl (λ s' a, step a s') s history.

(** The states a [useBenchmark()] instance can be in. *)
Inductive reachable : State → Prop :=
  | reachable_init : reachable init
  | reachable_step a s : reachable s → reachable (step a s).

(** The status after each action of a history. *)
Fixpoint status_trace (history : list Action) (s : State) : list TestStatus :=
  match history with
  | [] => []
  | a :: rest => testStatus (step a s) :: status_trace rest (step a s)
  end.

(** The recorded overall progress after each action of a history. *)
Fixpoint overall_trace (history : list Action) (s : State) : list Qc :=
  match history with
  | [] => []
  | a :: rest => overall (progress (step a s)) :: overall_trace rest (step a s)
  end.

End useBenchmark.

(** ** The configuration store ([stores/index.ts]) *)

Module useBenchmarkStore.

(** [config] is a plain object: [Partial<BenchmarkConfig>] only says which
    keys may be missing, and the spread copies whatever keys are there. *)
Record State : Type := mkState {
  config : gmap string JsVal;
  currentResults : option TestResults.t;
  testHistory : list TestResults.t;
  isTestRunning : bool;
  testProgress : option JsVal
}.

Definition default_config : gmap string JsVal :=
  {[ "cpuTest" := JsObject {[ "enabled" := JsBool true;
                              "duration" := JsNumber (Qc_of_Z 60);
                              "threadCount" := JsNumber (Qc_of_Z 0) ]};
     "memoryTest" := JsObject {[ "enabled" := JsBool true;
                                 "bufferSize" := JsNumber (Qc_of_Z 1024);
                                 "iterations" := JsNumber (Qc_of_Z 100) ]};
     "storageTest" := JsObject {[ "enabled" := JsBool true;
                                  "fileSize" := JsNumber (Qc_of_Z 1024);
                                  "blockSize" := JsNumber (Qc_of_Z 4) ]} ]}.

Definition init : State :=
  {| config := default_config; currentResults := None; testHistory := [];
     isTestRunning := false; testProgress := None |}.

Definition updateConfig (newConfig : gmap string JsVal) (s : State) : State :=
  mkState (spread2 (config s) newConfig) (currentResults s) (testHistory s)
    (isTestRunning s) (testProgress s).

Definition setTestResults (results : TestResults.t) (s : State) : State :=
  mkState (config s) (Some results) (push (testHistory s) results)
    (isTestRunning s) (testProgress s).

Definition setTestRunning (running : bool) (s : State) : State :=
  mkState (config s) (currentResults s) (testHistory s) running (testProgress s).

Definition updateProgress (progress : JsVal) (s : State) : State :=
  mkState (config s) (currentResults s) (testHistory s) (isTestRunning s)
    (Some progress).

Definition clearProgress (s : State) : State :=
  mkState (config s) (currentResults s) (testHistory s) (isTestRunning s) None.

(** The named section of a configuration, [undefined] when it is missing. *)
Definition section_of (cfg : gmap string JsVal) (name : string) : JsVal :=
  default JsUndefined (cfg !! name).

End useBenchmarkStore.

(** ** Scenarios

    Concrete back ends, payloads and states used to run the model. *)

Module Scenario.
Import useBenchmark.

(** A back end that fulfils every command; it names new sessions
    [sessionId] and reports [status] for every session. *)
Definition accept (sessionId : string) (status : TestStatus) : Backend :=
  λ A c,
    match c in Command T return Settled T with
    | get_system_info => Fulfilled JsNull
    | start_benchmark_suite _ => Fulfilled sessionId
    | cancel_benchmark _ => Fulfilled ()
    | get_test_status _ => Fulfilled status
    | get_all_test_sessions => Fulfilled []
    | get_system_monitoring_data =>
        Fulfilled (SystemMonitoringData.mk 0 0 None "")
    | cleanup_completed_sessions => Fulfilled 0%Qc
    | pause_benchmark _ => Fulfilled ()
    | resume_benchmark _ => Fulfilled ()
    | run_cpu_benchmark _ => Fulfilled JsNull
    | run_memory_benchmark _ => Fulfilled JsNull
    | run_storage_benchmark _ => Fulfilled JsNull
    end.

(** A back end that rejects every command with [reason]. *)
Definition refuse (reason : JsVal) : Backend := λ A _, Rejected reason.

Definition InvalidStateError : JsVal :=
  JsString "InvalidStateError: session is not running".
Definition SessionNotFoundError : JsVal :=
  JsObject {[ "code" := JsString "SessionNotFoundError";
              "message" := JsString "session not found" ]}.

(** The component is mounted and has started the suite: session [bench-1]
    is running. *)
Definition mounted : State := setupEventListeners 7 init.
Definition running : State :=
  (startBenchmarkSuite (accept "bench-1" Running)
     (JsObject useBenchmarkStore.default_config) mounted).1.

Definition some_results : TestResults.t :=
  TestResults.mk "2024-05-01T10:00:00Z" JsNull (Some (JsObject ∅)) None None 1.

Definition suite_succeeded : BenchmarkSuiteCompleteEvent.t :=
  BenchmarkSuiteCompleteEvent.mk "bench-1" true (Some some_results) None.
Definition suite_failed : BenchmarkSuiteCompleteEvent.t :=
  BenchmarkSuiteCompleteEvent.mk "bench-1" false None (Some "suite failed").

Definition cpu_failed : TestCompleteEvent.t :=
  TestCompleteEvent.mk "bench-1" "cpu" false JsUndefined (Some "CPU test failed").
Definition memory_succeeded : TestCompleteEvent.t :=
  TestCompleteEvent.mk "bench-1" "memory" true (JsObject ∅) None.
Definition failed_without_message : TestCompleteEvent.t :=
  TestCompleteEvent.mk "bench-1" "cpu" false JsUndefined None.

(** Session [bench-1] after its suite-complete event reported success. *)
Definition completed : State := deliver (BenchmarkComplete suite_succeeded) running.
(** Session [bench-1] after the user cancelled it. *)
Definition cancelled : State := (cancelBenchmark (accept "bench-1" Running) running).1.

Definition progress_at (percent : Z) : BenchmarkProgress.t :=
  BenchmarkProgress.mk "bench-1" "cpu" (Qc_of_Z percent) (Qc_of_Z percent)
    "running" None.

Definition sample_of (session_id : string) : RealTimePerformanceData.t :=
  RealTimePerformanceData.mk session_id "cpu" ∅ "2024-05-01T10:00:01Z".

End Scenario.

(** * Properties *)

Import useBenchmark.

(** ** Terminal statuses *)

Definition terminal (status : TestStatus) : bool :=
  match status with
  | Completed | Failed | Cancelled => true
  | Pending | Running => false
  end.

(** The session an event is addressed to; [system-monitoring] has none. *)
Definition event_session (ev : Event) : option string :=
  match ev with
  | BenchmarkProgressEvent data => Some (BenchmarkProgress.session_id data)
  | SystemMonitoringEvent _ => None
  | RealTimePerformanceEvent data => Some (RealTimePerformanceData.session_id data)
  | TestWarning data => Some (TestWarningEvent.session_id data)
  | TestComplete data => Some (TestCompleteEvent.session_id data)
  | BenchmarkComplete data => Some (BenchmarkSuiteCompleteEvent.session_id data)
  | TestError data => Some (TestCompleteEvent.session_id data)
  end.

(** The actions whose code never assigns [testStatus]: everything except
    start, cancel, the status query, cleanup, and the test-complete (with
    [success = false]), benchmark-complete and test-error events. *)
Definition status_neutral (a : Action) : bool :=
  match a with
  | Call _ (StartBenchmarkSuite _ | CancelBenchmark | GetTestStatus _ | Cleanup) =>
      false
  | Call _ _ => true
  | Emit (TestComplete data) => TestCompleteEvent.success data
  | Emit (BenchmarkComplete _ | TestError _) => false
  | Emit _ => true
  end.

(** What a benchmark-complete event makes of the status. *)
Definition suite_verdict (data : BenchmarkSuiteCompleteEvent.t) : TestStatus :=
  if BenchmarkSuiteCompleteEvent.success data
     && bool_decide (is_Some (BenchmarkSuiteCompleteEvent.results data))
  then Completed else Failed.

(** ** Progress histories *)

(** The actions of a progress history of the current session: benchmark
    progress events addressed to it, and pause and resume calls. *)
Definition tracked (s : State) (a : Action) : bool :=
  match a with
  | Emit (BenchmarkProgressEvent data) =>
      is_current s (BenchmarkProgress.session_id data)
  | Call _ (PauseBenchmark | ResumeBenchmark) => true
  | _ => false
  end.

(** The value a display that copies each delivered [overall_progress], and
    keeps the previous value otherwise, shows after each action. *)
Fixpoint carried (previous : Qc) (history : list Action) : list Qc :=
  match history with
  | [] => []
  | a :: rest =>
      let shown :=
        match a with
        | Emit (BenchmarkProgressEvent data) =>
            BenchmarkProgress.overall_progress data
        | _ => previous
        end in
      shown :: carried shown rest
  end.

(** A list of numbers that never decreases. *)
Fixpoint non_decreasing (previous : Qc) (values : list Qc) : Prop :=
  match values with
  | [] => True
  | v :: rest => (previous ≤ v)%Qc ∧ non_decreasing v rest
  end.

(** The [overall_progress] values a history delivers, in order. *)
Fixpoint delivered (history : list Action) : list Qc :=
  match history with
  | [] => []
  | Emit (BenchmarkProgressEvent data) :: rest =>
      BenchmarkProgress.overall_progress data :: delivered rest
  | _ :: rest => delivered rest
  end.

(** ** Listener bookkeeping *)

(** How many listeners are registered under [name]. *)
Definition registered (name : EventName) (s : State) : nat :=
  length (filter (λ n, n = name) (eventManager s)).

(** ** Outcomes of the operations *)

(** Whether the promise an operation hands to its caller is rejected.
    [setupEventListeners] catches inside; [cleanup] is synchronous. *)
Definition rejects (invoke : Backend) (op : Operation) (s : State) : bool :=
  match op with
  | InitializeSystemInfo => is_rejected (initializeSystemInfo invoke s).2
  | StartBenchmarkSuite config =>
      is_rejected (startBenchmarkSuite invoke config s).2
  | CancelBenchmark => is_rejected (cancelBenchmark invoke s).2
  | PauseBenchmark => is_rejected (pauseBenchmark invoke s).2
  | ResumeBenchmark => is_rejected (resumeBenchmark invoke s).2
  | GetTestStatus sessionId => is_rejected (getTestStatus invoke sessionId s).2
  | GetAllTestSessions => is_rejected (getAllTestSessions invoke s).2
  | GetSystemMonitoringData => is_rejected (getSystemMonitoringData invoke s).2
  | CleanupCompletedSessions =>
      is_rejected (cleanupCompletedSessions invoke s).2
  | SetupEventListeners _ | Cleanup => false
  end.

(** The actions other than start and cleanup. *)
Definition within_session (a : Action) : bool :=
  match a with
  | Call _ (StartBenchmarkSuite _ | Cleanup) => false
  | _ => true
  end.

(** ** Histories of the configuration store *)

Inductive StoreAction : Type :=
  | UpdateConfig (newConfig : gmap string JsVal)
  | SetTestResults (results : TestResults.t)
  | SetTestRunning (running : bool)
  | UpdateProgress (progress : JsVal)
  | ClearProgress.

Definition store_step (a : StoreAction) (s : useBenchmarkStore.State)
  : useBenchmarkStore.State :=
  match a with
  | UpdateConfig newConfig => useBenchmarkStore.updateConfig newConfig s
  | SetTestResults results => useBenchmarkStore.setTestResults results s
  | SetTestRunning running => useBenchmarkStore.setTestRunning running s
  | UpdateProgress progress => useBenchmarkStore.updateProgress progress s
  | ClearProgress => useBenchmarkStore.clearProgress s
  end.

Definition store_run (history : list StoreAction) (s : useBenchmarkStore.State)
  : useBenchmarkStore.State :=
  foldl (λ s' a, store_step a s') s history.

(** The results a history hands to [setTestResults], in order. *)
Fixpoint recorded (history : list StoreAction) : list TestResults.t :=
  match history with
  | [] => []
  | SetTestResults results :: rest => results :: recorded rest
  | _ :: rest => recorded rest
  end.

(** The partial configurations a history hands to [updateConfig], merged:
    a later one overrides an earlier one key by key. *)
Fixpoint merged (history : list StoreAction) : gmap string JsVal :=
  match history with
  | [] => ∅
  | UpdateConfig newConfig :: rest => spread2 newConfig (merged rest)
  | _ :: rest => merged rest
  end.

(** ** The suite view ([components/BenchmarkSuite.vue]) *)

Module BenchmarkSuite.

(** [`${n}`] for an integer [n]. *)
Definition decimal (n : Z) : string := pretty.pretty n.

(** [formatUptime], for a whole number of seconds: [Math.floor] of a
    quotient is the floor division, [%] is the remainder that takes the sign
    of the dividend, and a template literal prints an integer in decimal.
    The code computes on doubles: the quotients are the integer ones for
    the safe integers (up to 2^53 - 1 in absolute value); beyond them the
    day count of the code is a rounded one. *)
Definition formatUptime (seconds : Z) : string :=
  let days := (seconds / 86400)%Z in
  let hours := (Z.rem seconds 86400 / 3600)%Z in
  let minutes := (Z.rem seconds 3600 / 60)%Z in
  if bool_decide (0 < days)%Z then
    decimal days +:+ "天 " +:+ decimal hours +:+ "小时 " +:+ decimal minutes +:+ "分钟"
  else if bool_decide (0 < hours)%Z then
    decimal hours +:+ "小时 " +:+ decimal minutes +:+ "分钟"
  else
    decimal minutes +:+ "分钟".

(** The timer of [onMounted]: every two seconds, while the status is
    Running, the monitoring data is fetched. *)
Definition monitoringTick (invoke : Backend) (s : State) : State :=
  if bool_decide (testStatus s = Running)
  then (getSystemMonitoringData invoke s).1
  else s.

End BenchmarkSuite.

(** ** A walk through one session *)

Module Walkthrough.

(** The component is mounted and the suite is started. *)
Definition to_running : list Action :=
  [Call (Scenario.accept "bench-1" Running) (SetupEventListeners 7);
   Call (Scenario.accept "bench-1" Running)
     (StartBenchmarkSuite (JsObject useBenchmarkStore.default_config))].

(** ... two warnings and a sample arrive, and the suite completes. *)
Definition to_completed : list Action :=
  to_running
  ++ [Emit (TestWarning
              (TestWarningEvent.mk "bench-1" "cpu" "temperature" "CPU is hot" High));
      Emit (RealTimePerformanceEvent (Scenario.sample_of "bench-1"));
      Emit (TestWarning
              (TestWarningEvent.mk "bench-1" "memory" "errors" "bit flips" Critical));
      Emit (BenchmarkComplete Scenario.suite_succeeded)].

(** ... and the component is unmounted. *)
Definition to_unmounted : list Action :=
  to_completed ++ [Call (Scenario.accept "bench-1" Running) Cleanup].

End Walkthrough.

(** ** Interleaved runs

    An [async] operation gives the control back at each [await]: what the
    component sees is not its operations one after the other but their
    synchronous segments, interleaved with each other, with [cleanup] and
    with the callbacks of the events.  A [Segment] is one such piece of
    code; the answer of the back end that a segment continues from, and the
    session id a status query has computed before its [await], are carried
    by the segment. *)

Inductive Segment : Type :=
  (* initializeSystemInfo and startBenchmarkSuite, up to their await *)
  | LoadingBegins
  (* initializeSystemInfo, from its await on *)
  | SystemInfoAnswered (answer : Settled JsVal)
  (* startBenchmarkSuite, from its await on *)
  | StartAnswered (answer : Settled string)
  (* cancelBenchmark, pauseBenchmark, resumeBenchmark, from their await on *)
  | CancelAnswered (answer : Settled unit)
  | PauseAnswered (answer : Settled unit)
  | ResumeAnswered (answer : Settled unit)
  (* getTestStatus, from its await on; [target] was computed before it *)
  | StatusAnswered (target : string) (answer : Settled TestStatus)
  (* getAllTestSessions, from its await on; also the second half of
     cleanupCompletedSessions, which calls it *)
  | SessionsAnswered (answer : Settled (list TestSession.t))
  (* getSystemMonitoringData, from its await on *)
  | MonitoringAnswered (answer : Settled SystemMonitoringData.t)
  (* cleanupCompletedSessions, when its own command is rejected *)
  | CleanupSessionsRejected (reason : JsVal)
  (* addListener, from its await on: the listener is recorded *)
  | ListenerRecorded (name : EventName)
  (* cleanup, which has no await *)
  | CleanupRuns
  (* one run of the callback registered for the event *)
  | CallbackRuns (ev : Event).

Definition segment_step (segment : Segment) (s : State) : State :=
  match segment with
  | LoadingBegins => s |> set_isLoading true |> set_error JsNull
  | SystemInfoAnswered (Fulfilled info) =>
      s |> set_systemInfo (Some info) |> set_isLoading false
  | SystemInfoAnswered (Rejected err) =>
      s |> set_error (handleTauriError err) |> set_isLoading false
  | StartAnswered (Fulfilled sessionId) =>
      s |> set_currentSession (Some sessionId)
        |> set_testStatus Running
        |> set_overall 0 |> set_current 0 |> set_currentTest ""
        |> set_message "正在启动测试..."
        |> set_performanceData [] |> set_warnings []
        |> set_isLoading false
  | StartAnswered (Rejected err) =>
      s |> set_error (handleTauriError err) |> set_isLoading false
  | CancelAnswered (Fulfilled _) => s |> set_testStatus Cancelled
  | PauseAnswered (Fulfilled _) | ResumeAnswered (Fulfilled _) => s
  | StatusAnswered target (Fulfilled status) =>
      if is_current s target then s |> set_testStatus status else s
  | SessionsAnswered (Fulfilled sessions) => s |> set_allSessions sessions
  | MonitoringAnswered (Fulfilled data) => s |> set_monitoringData (Some data)
  | MonitoringAnswered (Rejected _) => s
  | CancelAnswered (Rejected err) | PauseAnswered (Rejected err)
  | ResumeAnswered (Rejected err) | StatusAnswered _ (Rejected err)
  | SessionsAnswered (Rejected err) | CleanupSessionsRejected err =>
      s |> set_error (handleTauriError err)
  | ListenerRecorded name =>
      s |> set_eventManager (EventListenerManager.addListener (eventManager s) name)
  | CleanupRuns => cleanup s
  | CallbackRuns ev => handle ev s
  end.

Definition segments_run (segments : list Segment) (s : State) : State :=
  foldl (λ s' segment, segment_step segment s') s segments.

(** The states the composable can be in when its segments run in any
    order.  No order is imposed (a continuation may run although its
    operation was never called), so these are at least the states the code
    reaches: what holds of all of them holds of the code. *)
Inductive interleaved : State → Prop :=
  | interleaved_init : interleaved init
  | interleaved_step segment s :
      interleaved s → interleaved (segment_step segment s).

(** The segments an operation runs when no other code runs in between. *)
Definition segments_of (invoke : Backend) (op : Operation) (s : State)
  : list Segment :=
  match op with
  | InitializeSystemInfo =>
      [LoadingBegins; SystemInfoAnswered (TauriApiService.getSystemInfo invoke)]
  | StartBenchmarkSuite config =>
      [LoadingBegins;
       StartAnswered (TauriApiService.startBenchmarkSuite invoke config)]
  | CancelBenchmark =>
      match truthy_session s with
      | Some sid => [CancelAnswered (TauriApiService.cancelBenchmark invoke sid)]
      | None => []
      end
  | PauseBenchmark =>
      match truthy_session s with
      | Some sid => [PauseAnswered (TauriApiService.pauseBenchmark invoke sid)]
      | None => []
      end
  | ResumeBenchmark =>
      match truthy_session s with
      | Some sid => [ResumeAnswered (TauriApiService.resumeBenchmark invoke sid)]
      | None => []
      end
  | GetTestStatus sessionId =>
      match targetSessionId sessionId s with
      | Some target =>
          [StatusAnswered target (TauriApiService.getTestStatus invoke target)]
      | None => []
      end
  | GetAllTestSessions =>
      [SessionsAnswered (TauriApiService.getAllTestSessions invoke)]
  | GetSystemMonitoringData =>
      [MonitoringAnswered (TauriApiService.getSystemMonitoringData invoke)]
  | CleanupCompletedSessions =>
      match TauriApiService.cleanupCompletedSessions invoke with
      | Fulfilled _ => [SessionsAnswered (TauriApiService.getAllTestSessions invoke)]
      | Rejected reason => [CleanupSessionsRejected reason]
      end
  | SetupEventListeners registered_listeners =>
      ListenerRecorded <$> take registered_listeners listened_events
  | Cleanup => [CleanupRuns]
  end.

(** Cleanup overtakes a cancel that is waiting for its answer: the suite is
    started, cancel is called, the component is unmounted, and then the
    back end fulfils the cancel command. *)
Definition cleanup_overtakes_cancel : list Segment :=
  [LoadingBegins; StartAnswered (Fulfilled "bench-1");
   CleanupRuns; CancelAnswered (Fulfilled ())].

(** ** Proof support *)

Ltac unfold_ops :=
  unfold call, initializeSystemInfo, startBenchmarkSuite, cancelBenchmark,
    pauseBenchmark, resumeBenchmark, getTestStatus, getAllTestSessions,
    getSystemMonitoringData, cleanupCompletedSessions, setupEventListeners,
    cleanup, getAllTestSessions,
    TauriApiService.getSystemInfo, TauriApiService.startBenchmarkSuite,
    TauriApiService.cancelBenchmark, TauriApiService.pauseBenchmark,
    TauriApiService.resumeBenchmark, TauriApiService.getTestStatus,
    TauriApiService.getAllTestSessions,
    TauriApiService.getSystemMonitoringData,
    TauriApiService.cleanupCompletedSessions in *.

Ltac unfold_handlers :=
  unfold handle, on_benchmark_progress, on_system_monitoring,
    on_real_time_performance, on_test_warning, on_test_complete,
    on_benchmark_complete, on_test_error in *.

Ltac split_cases :=
  repeat (case_match; simpl in *; try done); simpl in *; try done.

(** A property that every callback preserves survives the delivery of an
    event, however many listeners are registered. *)
Lemma deliver_preserves (P : State → Prop) (ev : Event) (s : State) :
  P s → (∀ s', P s' → P (handle ev s')) → P (deliver ev s).
Proof.
  intros Hs Hstep. unfold deliver.
  generalize (eventManager s). intros names. revert s Hs.
  induction names as [|name names IH]; intros s Hs; simpl; [done|].
  apply IH. case_bool_decide; auto.
Qed.

(** When a listener is registered for the event, what its callback
    establishes from the invariant [I] holds after the delivery. *)
Lemma deliver_registered (I Q : State → Prop) (ev : Event) (s : State) :
  event_name ev ∈ eventManager s →
  I s →
  (∀ s', I s' → I (handle ev s') ∧ Q (handle ev s')) →
  Q (deliver ev s).
Proof.
  intros Hin HI Hstep. unfold deliver.
  revert Hin. generalize (eventManager s). intros names Hin.
  assert (Hgen : ∀ s', I s' → Q s' ∨ event_name ev ∈ names →
            Q (foldl (λ s'' name,
                 if bool_decide (name = event_name ev) then handle ev s''
                 else s'') s' names)).
  { clear Hin HI. induction names as [|name names IH]; intros s' HI Hor; simpl.
    - destruct Hor as [HQ|Hin]; [done|]. by apply elem_of_nil in Hin.
    - case_bool_decide as Hname.
      + destruct (Hstep s' HI) as [HI' HQ']. apply IH; auto.
      + apply IH; [done|]. destruct Hor as [HQ|Hin]; [by left|right].
        apply elem_of_cons in Hin. destruct Hin as [Heq|Hin]; [congruence|done]. }
  apply Hgen; auto.
Qed.

Lemma handle_currentSession (ev : Event) (s : State) :
  currentSession (handle ev s) = currentSession s.
Proof. destruct ev; unfold_handlers; split_cases. Qed.

Lemma handle_eventManager (ev : Event) (s : State) :
  eventManager (handle ev s) = eventManager s.
Proof. destruct ev; unfold_handlers; split_cases. Qed.

Lemma deliver_currentSession (ev : Event) (s : State) :
  currentSession (deliver ev s) = currentSession s.
Proof.
  apply (deliver_preserves (λ s', currentSession s' = currentSession s)); [done|].
  intros s' Hs'. by rewrite handle_currentSession.
Qed.

Lemma deliver_eventManager (ev : Event) (s : State) :
  eventManager (deliver ev s) = eventManager s.
Proof.
  apply (deliver_preserves (λ s', eventManager s' = eventManager s)); [done|].
  intros s' Hs'. by rewrite handle_eventManager.
Qed.

(** A callback ignores an event addressed to another session. *)
Lemma handle_elsewhere (ev : Event) (sid : string) (s : State) :
  event_session ev = Some sid → currentSession s ≠ Some sid → handle ev s = s.
Proof.
  intros Hev Hsid. destruct ev; simpl in Hev; simplify_eq;
    unfold_handlers; unfold is_current; by rewrite bool_decide_eq_false_2.
Qed.

Lemma deliver_elsewhere (ev : Event) (sid : string) (s : State) :
  event_session ev = Some sid → currentSession s ≠ Some sid → deliver ev s = s.
Proof.
  intros Hev Hsid. apply (deliver_preserves (λ s', s' = s)); [done|].
  intros s' ->. by eapply handle_elsewhere.
Qed.

Lemma handle_neutral (ev : Event) (s : State) :
  status_neutral (Emit ev) = true → testStatus (handle ev s) = testStatus s.
Proof.
  intros Hn. destruct ev; simpl in Hn; try done; unfold_handlers; split_cases.
  by rewrite Hn in *.
Qed.

Lemma step_neutral (a : Action) (s : State) :
  status_neutral a = true → testStatus (step a s) = testStatus s.
Proof.
  intros Hn. destruct a as [invoke op|ev]; simpl.
  - destruct op; simpl in Hn; try done; unfold_ops; split_cases.
  - apply (deliver_preserves (λ s', testStatus s' = testStatus s)); [done|].
    intros s' <-. by apply handle_neutral.
Qed.

(** What the calls that assign [testStatus] leave in it. *)
Lemma cancel_fulfilled (invoke : Backend) (sid : string) (s : State) :
  truthy_session s = Some sid →
  invoke _ (cancel_benchmark sid) = Fulfilled () →
  cancelBenchmark invoke s = (set_testStatus Cancelled s, Fulfilled ()).
Proof. intros Hs Hok. unfold_ops. by rewrite Hs, Hok. Qed.

Lemma cancel_rejected (invoke : Backend) (sid : string) (reason : JsVal) (s : State) :
  truthy_session s = Some sid →
  invoke _ (cancel_benchmark sid) = Rejected reason →
  cancelBenchmark invoke s = (set_error (handleTauriError reason) s, Fulfilled ()).
Proof. intros Hs Hno. unfold_ops. by rewrite Hs, Hno. Qed.

Lemma cancel_no_session (invoke : Backend) (s : State) :
  truthy_session s = None → cancelBenchmark invoke s = (s, Fulfilled ()).
Proof. intros Hs. unfold_ops. by rewrite Hs. Qed.

Lemma benchmark_complete_status (data : BenchmarkSuiteCompleteEvent.t) (s : State) :
  is_current s (BenchmarkSuiteCompleteEvent.session_id data) = true →
  testStatus (on_benchmark_complete data s) = suite_verdict data.
Proof.
  intros Hc. unfold on_benchmark_complete, suite_verdict. rewrite Hc.
  destruct (BenchmarkSuiteCompleteEvent.success data),
    (BenchmarkSuiteCompleteEvent.results data); simpl; try done.
Qed.

Lemma deliver_benchmark_complete (data : BenchmarkSuiteCompleteEvent.t) (s : State) :
  benchmark_complete ∈ eventManager s →
  is_current s (BenchmarkSuiteCompleteEvent.session_id data) = true →
  testStatus (deliver (BenchmarkComplete data) s) = suite_verdict data.
Proof.
  intros Hin Hc.
  apply (deliver_registered
           (λ s', is_current s' (BenchmarkSuiteCompleteEvent.session_id data) = true)
           (λ s', testStatus s' = suite_verdict data)); [done|done|].
  intros s' Hs'. split.
  - unfold is_current in *. by rewrite handle_currentSession.
  - simpl. by apply benchmark_complete_status.
Qed.

Lemma deliver_status (ev : Event) (sid : string) (status : TestStatus) (s : State) :
  event_name ev ∈ eventManager s →
  currentSession s = Some sid →
  (∀ s', currentSession s' = Some sid → testStatus (handle ev s') = status) →
  testStatus (deliver ev s) = status.
Proof.
  intros Hin Hsid Hset.
  apply (deliver_registered (λ s', currentSession s' = Some sid)
           (λ s', testStatus s' = status)); [done|done|].
  intros s' Hs'. split; [by rewrite handle_currentSession | by apply Hset].
Qed.

Lemma is_current_true (s : State) (sid : string) :
  is_current s sid = true ↔ currentSession s = Some sid.
Proof. unfold is_current. by rewrite bool_decide_eq_true. Qed.

Lemma run_app (h1 h2 : list Action) (s : State) :
  run (h1 ++ h2) s = run h2 (run h1 s).
Proof. unfold run. by rewrite foldl_app. Qed.

Lemma run_cons (a : Action) (history : list Action) (s : State) :
  run (a :: history) s = run history (step a s).
Proof. reflexivity. Qed.

Lemma run_events_frame (events : list Event) (s : State) :
  currentSession (run (Emit <$> events) s) = currentSession s
  ∧ eventManager (run (Emit <$> events) s) = eventManager s.
Proof.
  revert s. induction events as [|ev events IH]; intros s; [done|].
  rewrite fmap_cons, run_cons. simpl. destruct (IH (deliver ev s)) as [-> ->].
  by rewrite deliver_currentSession, deliver_eventManager.
Qed.

(** ** C1: terminal statuses *)

(** C1, refuted as stated.  Session [bench-1] has completed; a cancel call
    that the back end fulfils turns Completed into Cancelled, and cleanup
    turns it into Pending.  Session [bench-1] has been cancelled; a
    benchmark-complete event for it turns Cancelled into Completed. *)
Lemma terminal_status_overwritten :
  terminal (testStatus Scenario.completed) = true
  ∧ testStatus (step (Call (Scenario.accept "bench-1" Completed) CancelBenchmark)
                     Scenario.completed) = Cancelled
  ∧ testStatus (step (Call (Scenario.accept "bench-1" Completed) Cleanup)
                     Scenario.completed) = Pending
  ∧ terminal (testStatus Scenario.cancelled) = true
  ∧ testStatus (step (Emit (BenchmarkComplete Scenario.suite_succeeded))
                     Scenario.cancelled) = Completed.
Proof. by vm_compute. Qed.

(** C1, amended.  A terminal status survives every action whose code does
    not assign the status (pause, resume, the queries other than the status
    query, listener set-up, progress, monitoring, performance and warning
    events, test-complete events with [success = true]) and every event
    addressed to another session.  The other actions overwrite it: a cancel
    the back end fulfils sets Cancelled, cleanup sets Pending, a start the
    back end fulfils sets Running, and the events of the current session set
    Failed (test-complete with [success = false], test-error) or the verdict
    of the benchmark-complete payload. *)
Theorem terminal_status_frame (s : State) :
  terminal (testStatus s) = true →
  (∀ a, status_neutral a = true → testStatus (step a s) = testStatus s)
  ∧ (∀ ev sid, event_session ev = Some sid → currentSession s ≠ Some sid →
       testStatus (step (Emit ev) s) = testStatus s)
  ∧ (∀ (invoke : Backend) sid, truthy_session s = Some sid →
       invoke _ (cancel_benchmark sid) = Fulfilled () →
       testStatus (step (Call invoke CancelBenchmark) s) = Cancelled)
  ∧ (∀ invoke, testStatus (step (Call invoke Cleanup) s) = Pending)
  ∧ (∀ (invoke : Backend) config sid,
       invoke _ (start_benchmark_suite config) = Fulfilled sid →
       testStatus (step (Call invoke (StartBenchmarkSuite config)) s) = Running)
  ∧ (∀ data, test_complete ∈ eventManager s →
       is_current s (TestCompleteEvent.session_id data) = true →
       TestCompleteEvent.success data = false →
       testStatus (step (Emit (TestComplete data)) s) = Failed)
  ∧ (∀ data, test_error ∈ eventManager s →
       is_current s (TestCompleteEvent.session_id data) = true →
       testStatus (step (Emit (TestError data)) s) = Failed)
  ∧ (∀ data, benchmark_complete ∈ eventManager s →
       is_current s (BenchmarkSuiteCompleteEvent.session_id data) = true →
       testStatus (step (Emit (BenchmarkComplete data)) s) = suite_verdict data).
Proof.
  intros _. repeat split.
  - intros a. apply step_neutral.
  - intros ev sid Hev Hsid. simpl. by rewrite (deliver_elsewhere ev sid).
  - intros invoke sid Hs Hok. simpl. by rewrite (cancel_fulfilled invoke sid).
  - intros invoke config sid Hok. simpl. unfold_ops. by rewrite Hok.
  - intros data Hin Hc Hfail. simpl. apply is_current_true in Hc.
    eapply deliver_status; [done|done|]. intros s' Hs'. simpl.
    unfold on_test_complete. apply is_current_true in Hs'. by rewrite Hs', Hfail.
  - intros data Hin Hc. simpl. apply is_current_true in Hc.
    eapply deliver_status; [done|done|]. intros s' Hs'. simpl.
    unfold on_test_error. apply is_current_true in Hs'. by rewrite Hs'.
  - intros data Hin Hc. simpl. by apply deliver_benchmark_complete.
Qed.

Lemma terminal_status_frame_witness :
  terminal (testStatus Scenario.completed) = true
  ∧ testStatus (step (Call (Scenario.refuse Scenario.InvalidStateError) PauseBenchmark)
                     Scenario.completed) = Completed.
Proof.
  split; [reflexivity|].
  destruct (terminal_status_frame Scenario.completed eq_refl) as [Hneutral _].
  exact (Hneutral (Call (Scenario.refuse Scenario.InvalidStateError) PauseBenchmark)
           eq_refl).
Defined.

(** ** C2: when a suite is marked Failed *)

(** C2, refuted as stated.  The CPU test of session [bench-1] fails and its
    memory test succeeds: the status is Failed as soon as the failure is
    delivered, and it is Failed after a benchmark-complete event that
    reports [success = false]. *)
Lemma failed_although_memory_succeeded :
  status_trace [Emit (TestComplete Scenario.cpu_failed);
                Emit (TestComplete Scenario.memory_succeeded)]
               Scenario.running = [Failed; Failed]
  ∧ testStatus (run [Emit (TestComplete Scenario.cpu_failed);
                     Emit (TestComplete Scenario.memory_succeeded);
                     Emit (BenchmarkComplete Scenario.suite_failed)]
                    Scenario.running) = Failed.
Proof. by vm_compute. Qed.

(** C2, amended.  A test-complete event with [success = false] for the
    current session marks the status Failed at once, whatever the other
    subsystems report; the status after the benchmark-complete event of the
    current session is the verdict of that event alone, whatever events came
    before it: Completed when it reports success and carries results, Failed
    otherwise. *)
Theorem status_follows_suite_event
    (s : State) (before : list Event) (data : BenchmarkSuiteCompleteEvent.t) :
  benchmark_complete ∈ eventManager s →
  is_current s (BenchmarkSuiteCompleteEvent.session_id data) = true →
  testStatus (run (Emit <$> (before ++ [BenchmarkComplete data])%list) s)
    = suite_verdict data
  ∧ (∀ failure, test_complete ∈ eventManager s →
       is_current s (TestCompleteEvent.session_id failure) = true →
       TestCompleteEvent.success failure = false →
       testStatus (deliver (TestComplete failure) s) = Failed).
Proof.
  intros Hin Hc. split.
  - rewrite fmap_app, run_app.
    change (run (Emit <$> [BenchmarkComplete data]) ?x)
      with (deliver (BenchmarkComplete data) x).
    destruct (run_events_frame before s) as [Hsid Hmgr].
    apply deliver_benchmark_complete; [by rewrite Hmgr|].
    unfold is_current in *. by rewrite Hsid.
  - intros failure Hin' Hc' Hfail. apply is_current_true in Hc'.
    eapply deliver_status; [done|done|]. intros s' Hs'. simpl.
    unfold on_test_complete. apply is_current_true in Hs'. by rewrite Hs', Hfail.
Qed.

Lemma status_follows_suite_event_witness :
  testStatus (run (Emit <$> ([TestComplete Scenario.cpu_failed;
                              TestComplete Scenario.memory_succeeded]
                             ++ [BenchmarkComplete Scenario.suite_succeeded])%list)
                  Scenario.running) = Completed.
Proof.
  refine (proj1 (status_follows_suite_event Scenario.running
            [TestComplete Scenario.cpu_failed; TestComplete Scenario.memory_succeeded]
            Scenario.suite_succeeded _ _)).
  - vm_compute. set_solver.
  - reflexivity.
Defined.

(** ** C3: cancel called twice, cancel after completion *)

(** C3, refuted as stated.  Session [bench-1] has completed; the back end
    treats the late cancel as a no-op and fulfils it; the call does not
    raise, but the status changes from Completed to Cancelled. *)
Lemma cancel_after_completion :
  testStatus Scenario.completed = Completed
  ∧ (cancelBenchmark (Scenario.accept "bench-1" Completed) Scenario.completed).2
      = Fulfilled ()
  ∧ testStatus
      (cancelBenchmark (Scenario.accept "bench-1" Completed) Scenario.completed).1
      = Cancelled.
Proof. by vm_compute. Qed.

(** C3, amended.  Cancel never raises: the promise it returns is always
    fulfilled.  Calling it twice against the same answers of the back end
    leaves the state that calling it once leaves.  The status is left as it
    was when there is no current session, when the back end rejects the
    command, and when it was Cancelled already; a cancel that the back end
    fulfils sets it to Cancelled whatever it was before. *)
Theorem cancel_twice_is_cancel_once (invoke : Backend) (s : State) :
  (cancelBenchmark invoke s).2 = Fulfilled ()
  ∧ cancelBenchmark invoke (cancelBenchmark invoke s).1 = cancelBenchmark invoke s
  ∧ (truthy_session s = None → (cancelBenchmark invoke s).1 = s)
  ∧ (∀ sid reason, truthy_session s = Some sid →
       invoke _ (cancel_benchmark sid) = Rejected reason →
       testStatus (cancelBenchmark invoke s).1 = testStatus s)
  ∧ (testStatus s = Cancelled → testStatus (cancelBenchmark invoke s).1 = Cancelled)
  ∧ (∀ sid, truthy_session s = Some sid →
       invoke _ (cancel_benchmark sid) = Fulfilled () →
       testStatus (cancelBenchmark invoke s).1 = Cancelled).
Proof.
  repeat split.
  - unfold_ops. split_cases.
  - unfold cancelBenchmark, TauriApiService.cancelBenchmark.
    destruct (truthy_session s) as [sid|] eqn:Hs; [|simpl; by rewrite Hs].
    destruct (invoke _ (cancel_benchmark sid)) as [[]|reason] eqn:Hr; simpl.
    + change (truthy_session (set_testStatus Cancelled s)) with (truthy_session s).
      by rewrite Hs, Hr.
    + change (truthy_session (set_error (handleTauriError reason) s))
        with (truthy_session s).
      by rewrite Hs, Hr.
  - intros Hs. by rewrite cancel_no_session.
  - intros sid reason Hs Hr. by rewrite (cancel_rejected invoke sid reason).
  - intros Hc. unfold_ops. split_cases.
  - intros sid Hs Hr. by rewrite (cancel_fulfilled invoke sid).
Qed.

Lemma cancel_twice_is_cancel_once_witness :
  truthy_session Scenario.running = Some "bench-1"
  ∧ testStatus
      (cancelBenchmark (Scenario.refuse Scenario.SessionNotFoundError)
         Scenario.running).1 = Running.
Proof.
  split; [reflexivity|].
  destruct (cancel_twice_is_cancel_once
              (Scenario.refuse Scenario.SessionNotFoundError) Scenario.running)
    as (_ & _ & _ & Hrejected & _).
  exact (Hrejected "bench-1" Scenario.SessionNotFoundError eq_refl eq_refl).
Defined.

(** ** C4: errors of the session-control commands *)

(** C4, refuted as stated.  The back end rejects every command of session
    [bench-1]: the service call is rejected with the error, but the
    composable's pause call is fulfilled, with the error stored in the
    state, and its status query is fulfilled with [undefined]. *)
Lemma session_control_error_swallowed :
  TauriApiService.pauseBenchmark (Scenario.refuse Scenario.InvalidStateError) "bench-1"
    = Rejected Scenario.InvalidStateError
  ∧ pauseBenchmark (Scenario.refuse Scenario.InvalidStateError) Scenario.running
    = (set_error Scenario.InvalidStateError Scenario.running, Fulfilled ())
  ∧ is_rejected
      (pauseBenchmark (Scenario.refuse Scenario.InvalidStateError) Scenario.running).2
    = false
  ∧ getTestStatus (Scenario.refuse Scenario.SessionNotFoundError) (Some "bench-9")
      Scenario.running
    = (set_error (JsString "session not found") Scenario.running, Fulfilled None).
Proof. by vm_compute. Qed.

(** C4, amended.  When the command behind cancel, pause, resume or the
    status query is rejected, the service layer ([TauriApiService]) hands
    the rejection to its caller unchanged; the composable catches it, stores
    [handleTauriError] of the reason in [error], changes nothing else and
    fulfils its own promise (with [undefined] for the status query). *)
Theorem session_control_errors
    (invoke : Backend) (sid : string) (reason : JsVal) (s : State) :
  truthy_session s = Some sid →
  (invoke _ (cancel_benchmark sid) = Rejected reason →
     TauriApiService.cancelBenchmark invoke sid = Rejected reason
     ∧ cancelBenchmark invoke s
       = (set_error (handleTauriError reason) s, Fulfilled ()))
  ∧ (invoke _ (pause_benchmark sid) = Rejected reason →
     TauriApiService.pauseBenchmark invoke sid = Rejected reason
     ∧ pauseBenchmark invoke s
       = (set_error (handleTauriError reason) s, Fulfilled ()))
  ∧ (invoke _ (resume_benchmark sid) = Rejected reason →
     TauriApiService.resumeBenchmark invoke sid = Rejected reason
     ∧ resumeBenchmark invoke s
       = (set_error (handleTauriError reason) s, Fulfilled ()))
  ∧ (∀ sessionId target, targetSessionId sessionId s = Some target →
     invoke _ (get_test_status target) = Rejected reason →
     TauriApiService.getTestStatus invoke target = Rejected reason
     ∧ getTestStatus invoke sessionId s
       = (set_error (handleTauriError reason) s, Fulfilled None)).
Proof.
  intros Hs. split; [|split; [|split]].
  - intros Hr. split; [done|]. unfold_ops. by rewrite Hs, Hr.
  - intros Hr. split; [done|]. unfold_ops. by rewrite Hs, Hr.
  - intros Hr. split; [done|]. unfold_ops. by rewrite Hs, Hr.
  - intros sessionId target Ht Hr. split; [done|]. unfold_ops. by rewrite Ht, Hr.
Qed.

Lemma session_control_errors_witness :
  truthy_session Scenario.running = Some "bench-1"
  ∧ resumeBenchmark (Scenario.refuse Scenario.InvalidStateError) Scenario.running
    = (set_error (handleTauriError Scenario.InvalidStateError) Scenario.running,
       Fulfilled ()).
Proof.
  split; [reflexivity|].
  destruct (session_control_errors (Scenario.refuse Scenario.InvalidStateError)
              "bench-1" Scenario.InvalidStateError Scenario.running eq_refl)
    as (_ & _ & Hresume & _).
  exact (proj2 (Hresume eq_refl)).
Defined.

(** ** C5: test-error and test-complete *)

(** C5, refuted as stated.  A failure of session [bench-1] that carries no
    error text: the test-complete callback stores one fallback message, the
    test-error callback another, so the two resulting states differ. *)
Lemma test_error_is_not_an_alias :
  is_current Scenario.running
    (TestCompleteEvent.session_id Scenario.failed_without_message) = true
  ∧ TestCompleteEvent.success Scenario.failed_without_message = false
  ∧ error (on_test_complete Scenario.failed_without_message Scenario.running)
    = JsString "测试失败"
  ∧ error (on_test_error Scenario.failed_without_message Scenario.running)
    = JsString "测试出现错误"
  ∧ on_test_error Scenario.failed_without_message Scenario.running
    ≠ on_test_complete Scenario.failed_without_message Scenario.running.
Proof.
  split; [reflexivity|]. split; [reflexivity|].
  split; [reflexivity|]. split; [reflexivity|].
  intros Heq. apply (f_equal error) in Heq. vm_compute in Heq. discriminate.
Qed.

(** C5, amended.  For a payload of the current session with
    [success = false], the test-error callback and the test-complete
    callback both set the status to Failed and agree on everything except
    possibly the stored error message: when the payload carries a non-empty
    [error], both store it and the resulting states are equal; when it
    carries none (or an empty one), each stores its own fallback text. *)
Theorem test_error_vs_test_complete (data : TestCompleteEvent.t) (s : State) :
  is_current s (TestCompleteEvent.session_id data) = true →
  TestCompleteEvent.success data = false →
  testStatus (on_test_error data s) = Failed
  ∧ testStatus (on_test_complete data s) = Failed
  ∧ set_error JsNull (on_test_error data s) = set_error JsNull (on_test_complete data s)
  ∧ (∀ text, TestCompleteEvent.error data = Some text → text ≠ "" →
       on_test_error data s = on_test_complete data s
       ∧ error (on_test_error data s) = JsString text)
  ∧ (TestCompleteEvent.error data = None ∨ TestCompleteEvent.error data = Some "" →
       error (on_test_complete data s) = JsString "测试失败"
       ∧ error (on_test_error data s) = JsString "测试出现错误").
Proof.
  intros Hc Hfail. unfold on_test_error, on_test_complete.
  rewrite Hc, Hfail. simpl.
  split; [done|]. split; [done|]. split; [done|]. split.
  - intros text -> Hne. simpl. by rewrite bool_decide_eq_false_2.
  - by intros [-> | ->].
Qed.

Lemma test_error_vs_test_complete_witness :
  on_test_error Scenario.cpu_failed Scenario.running
  = on_test_complete Scenario.cpu_failed Scenario.running.
Proof.
  destruct (test_error_vs_test_complete Scenario.cpu_failed Scenario.running
              eq_refl eq_refl) as (_ & _ & _ & Hsame & _).
  refine (proj1 (Hsame "CPU test failed" eq_refl _)). discriminate.
Defined.

(** ** C7: when the status becomes Cancelled *)

(** C7, refuted as stated.  Session [bench-1] is running and the back end
    still reports it as Running; the cancel call returns and the status is
    Cancelled already, although no event of the runner has been delivered. *)
Lemma cancelled_as_soon_as_cancel_returns :
  testStatus Scenario.running = Running
  ∧ TauriApiService.getTestStatus (Scenario.accept "bench-1" Running) "bench-1"
    = Fulfilled Running
  ∧ cancelBenchmark (Scenario.accept "bench-1" Running) Scenario.running
    = (set_testStatus Cancelled Scenario.running, Fulfilled ()).
Proof. by vm_compute. Qed.

(** C7, amended.  For a session on which cancel is called, the status is
    Cancelled at the moment the call returns whenever the back end fulfilled
    the command, and is left as it was when the back end rejected it; the
    front end does not wait for the runner: no event sets the status to
    Cancelled. *)
Theorem cancelled_on_return (invoke : Backend) (sid : string) (s : State) :
  truthy_session s = Some sid →
  (invoke _ (cancel_benchmark sid) = Fulfilled () →
     testStatus (cancelBenchmark invoke s).1 = Cancelled)
  ∧ (∀ reason, invoke _ (cancel_benchmark sid) = Rejected reason →
     testStatus (cancelBenchmark invoke s).1 = testStatus s)
  ∧ (∀ ev, testStatus s ≠ Cancelled → testStatus (deliver ev s) ≠ Cancelled).
Proof.
  intros Hs. split; [|split].
  - intros Hok. by rewrite (cancel_fulfilled invoke sid).
  - intros reason Hno. by rewrite (cancel_rejected invoke sid reason).
  - intros ev Hnot. apply (deliver_preserves (λ s', testStatus s' ≠ Cancelled)); [done|].
    intros s' Hs'. destruct ev; unfold_handlers; split_cases.
Qed.

Lemma cancelled_on_return_witness :
  truthy_session Scenario.running = Some "bench-1"
  ∧ testStatus (cancelBenchmark (Scenario.accept "bench-1" Running) Scenario.running).1
    = Cancelled.
Proof.
  split; [reflexivity|].
  exact (proj1 (cancelled_on_return (Scenario.accept "bench-1" Running) "bench-1"
                  Scenario.running eq_refl) eq_refl).
Defined.

(** ** C6: the recorded overall progress *)

Lemma tracked_same_session (s1 s2 : State) (a : Action) :
  currentSession s1 = currentSession s2 → tracked s1 a = tracked s2 a.
Proof.
  intros Hsid. destruct a as [invoke op|ev]; [done|].
  destruct ev; try done. simpl. unfold is_current. by rewrite Hsid.
Qed.

(** One tracked action: the session and the listeners stay, and the recorded
    value is the delivered one, or the previous one for pause and resume. *)
Lemma step_tracked (a : Action) (s : State) :
  benchmark_progress ∈ eventManager s →
  tracked s a = true →
  currentSession (step a s) = currentSession s
  ∧ eventManager (step a s) = eventManager s
  ∧ carried (overall (progress s)) [a] = [overall (progress (step a s))].
Proof.
  intros Hin Ht. destruct a as [invoke op|ev].
  - destruct op; try done; simpl; unfold_ops; split_cases.
  - destruct ev as [data| | | | | |]; try done. simpl in *.
    rewrite deliver_currentSession, deliver_eventManager.
    split; [done|]. split; [done|]. f_equal. symmetry.
    apply is_current_true in Ht.
    apply (deliver_registered
             (λ s', currentSession s' = Some (BenchmarkProgress.session_id data))
             (λ s', overall (progress s') = BenchmarkProgress.overall_progress data));
      [done|done|].
    intros s' Hs'. split; [by rewrite handle_currentSession|].
    simpl. unfold on_benchmark_progress.
    apply is_current_true in Hs'. by rewrite Hs'.
Qed.

Lemma overall_trace_carried (history : list Action) (s : State) :
  benchmark_progress ∈ eventManager s →
  Forall (λ a, tracked s a = true) history →
  overall_trace history s = carried (overall (progress s)) history.
Proof.
  revert s. induction history as [|a history IH]; intros s Hin Hall; [done|].
  inversion Hall as [|a0 history0 Ha Hall']; subst. clear Hall. rename Hall' into Hall.
  destruct (step_tracked a s Hin Ha) as (Hsid & Hmgr & Hval).
  simpl in Hval. injection Hval as Hval.
  simpl. rewrite Hval. f_equal. apply IH; [by rewrite Hmgr|].
  eapply Forall_impl; [|exact Hall]. intros a' Ha'. simpl in Ha'.
  by rewrite (tracked_same_session _ s).
Qed.

Lemma carried_non_decreasing (previous : Qc) (history : list Action) :
  non_decreasing previous (carried previous history)
  ↔ non_decreasing previous (delivered history).
Proof.
  revert previous. induction history as [|a history IH]; intros previous; [done|].
  destruct a as [invoke op|[data| | | | | |]]; simpl; rewrite IH;
    try (split; [by intros [_ ?] | by intros ?; split; [apply Qcle_refl|]]).
  done.
Qed.

(** C6, refuted as stated.  Session [bench-1] is shown 50 percent, is paused
    and resumed, and is then shown 30 percent: the recorded overall progress
    goes 50, 50, 50, 30. *)
Lemma overall_progress_regresses :
  let history :=
    [Emit (BenchmarkProgressEvent (Scenario.progress_at 50));
     Call (Scenario.accept "bench-1" Running) PauseBenchmark;
     Call (Scenario.accept "bench-1" Running) ResumeBenchmark;
     Emit (BenchmarkProgressEvent (Scenario.progress_at 30))] in
  overall_trace history Scenario.running
    = [Qc_of_Z 50; Qc_of_Z 50; Qc_of_Z 50; Qc_of_Z 30]
  ∧ ¬ non_decreasing (overall (progress Scenario.running))
        (overall_trace history Scenario.running).
Proof.
  split; [by vm_compute|].
  intros (_ & _ & _ & Hdown & _). vm_compute in Hdown. by apply Hdown.
Qed.

(** C6, amended.  Over a sequence of benchmark-progress events of the
    current session, pause calls and resume calls, the recorded overall
    progress is a copy: after a progress event it is that event's
    [overall_progress], after a pause or a resume it is what it was (nothing
    is added up, so nothing is counted twice).  It is therefore
    non-decreasing over the sequence exactly when the delivered values are
    non-decreasing. *)
Theorem overall_progress_is_copied (history : list Action) (s : State) :
  benchmark_progress ∈ eventManager s →
  Forall (λ a, tracked s a = true) history →
  overall_trace history s = carried (overall (progress s)) history
  ∧ (non_decreasing (overall (progress s)) (overall_trace history s)
     ↔ non_decreasing (overall (progress s)) (delivered history)).
Proof.
  intros Hin Hall. rewrite (overall_trace_carried history s Hin Hall).
  split; [done|]. apply carried_non_decreasing.
Qed.

Lemma overall_progress_is_copied_witness :
  overall_trace
    [Emit (BenchmarkProgressEvent (Scenario.progress_at 20));
     Call (Scenario.accept "bench-1" Running) PauseBenchmark;
     Call (Scenario.accept "bench-1" Running) ResumeBenchmark;
     Emit (BenchmarkProgressEvent (Scenario.progress_at 45))]
    Scenario.running
  = [Qc_of_Z 20; Qc_of_Z 20; Qc_of_Z 20; Qc_of_Z 45].
Proof.
  refine (proj1 (overall_progress_is_copied _ Scenario.running _ _)).
  - vm_compute. set_solver.
  - repeat constructor.
Defined.

(** ** C8: the real-time performance buffer *)

Lemma slice_last_length {A} (n : nat) (l : list A) : length (slice_last n l) ≤ n.
Proof. unfold slice_last. rewrite length_drop. lia. Qed.

Lemma slice_last_short {A} (n : nat) (l : list A) :
  length l ≤ n → slice_last n l = l.
Proof. intros Hlen. unfold slice_last. by replace (length l - n) with 0 by lia. Qed.

(** One run of the callback, for the current session: push, then keep the
    last hundred. *)
Lemma on_real_time_performance_current (data : RealTimePerformanceData.t) (s : State) :
  is_current s (RealTimePerformanceData.session_id data) = true →
  performanceData (on_real_time_performance data s)
  = slice_last 100 (push (performanceData s) data).
Proof.
  intros Hc. unfold on_real_time_performance. rewrite Hc. simpl.
  case_bool_decide as Hlen; simpl; [done|].
  symmetry. apply slice_last_short. lia.
Qed.

Lemma on_real_time_performance_bounded (data : RealTimePerformanceData.t) (s : State) :
  length (performanceData s) ≤ 100 →
  length (performanceData (on_real_time_performance data s)) ≤ 100.
Proof.
  intros Hlen.
  destruct (is_current s (RealTimePerformanceData.session_id data)) eqn:Hc.
  - rewrite on_real_time_performance_current by done. apply slice_last_length.
  - unfold on_real_time_performance. by rewrite Hc.
Qed.

Lemma handle_performance_bounded (ev : Event) (s : State) :
  length (performanceData s) ≤ 100 → length (performanceData (handle ev s)) ≤ 100.
Proof.
  intros Hlen. destruct ev; try (unfold_handlers; split_cases; fail).
  by apply on_real_time_performance_bounded.
Qed.

(** Keeping the last [n] entries after each push, or once at the end, is
    the same. *)
Lemma slice_last_app {A} (n : nat) (l r : list A) :
  slice_last n (slice_last n l ++ r) = slice_last n (l ++ r).
Proof.
  unfold slice_last. destruct (decide (length l ≤ n)) as [Hle|Hgt].
  - by replace (length l - n) with 0 by lia.
  - rewrite !length_app, length_drop.
    rewrite <- (drop_app_le l r (length l - n)) by lia.
    rewrite drop_drop. f_equal. lia.
Qed.

(** The delivery of one event to the current session: one push for each
    registered listener. *)
Lemma deliver_performance_current (data : RealTimePerformanceData.t) (s : State) :
  length (performanceData s) ≤ 100 →
  is_current s (RealTimePerformanceData.session_id data) = true →
  performanceData (deliver (RealTimePerformanceEvent data) s)
  = slice_last 100
      (performanceData s ++ replicate (registered real_time_performance s) data).
Proof.
  intros Hlen Hc. unfold deliver, registered.
  generalize (eventManager s). intros names. revert s Hlen Hc.
  induction names as [|name names IH]; intros s Hlen Hc.
  - simpl. rewrite app_nil_r. symmetry. by apply slice_last_short.
  - simpl. unfold filter. simpl. case_bool_decide as Hname.
    + subst name. rewrite decide_True by done. simpl.
      rewrite IH.
      * rewrite on_real_time_performance_current by done. unfold push.
        rewrite slice_last_app. by rewrite <- app_assoc.
      * by apply on_real_time_performance_bounded.
      * pose proof (handle_currentSession (RealTimePerformanceEvent data) s) as Hsid.
        simpl in Hsid. unfold is_current in *. by rewrite Hsid.
    + rewrite decide_False by done. by apply IH.
Qed.

(** The buffer never holds more than a hundred entries. *)
Lemma performanceData_bounded (s : State) :
  reachable s → length (performanceData s) ≤ 100.
Proof.
  induction 1 as [|a s Hs IH]; [simpl; lia|].
  destruct a as [invoke op|ev]; simpl.
  - destruct op; unfold_ops; split_cases; lia.
  - apply (deliver_preserves (λ s', length (performanceData s') ≤ 100)); [done|].
    intros s'. apply handle_performance_bounded.
Qed.

(** C8.  In every state the composable can be in, after a
    real-time-performance event has been processed the buffer holds at most
    100 entries.  When the event is addressed to the current session, the
    buffer is the last 100 entries of the old buffer extended with the new
    entry (once for each registered listener); an event addressed to another
    session leaves the buffer as it is. *)
Theorem performance_buffer_bounded (data : RealTimePerformanceData.t) (s : State) :
  reachable s →
  length (performanceData (deliver (RealTimePerformanceEvent data) s)) ≤ 100
  ∧ length (performanceData (on_real_time_performance data s)) ≤ 100
  ∧ (is_current s (RealTimePerformanceData.session_id data) = true →
       performanceData (on_real_time_performance data s)
       = slice_last 100 (performanceData s ++ [data])
       ∧ performanceData (deliver (RealTimePerformanceEvent data) s)
         = slice_last 100
             (performanceData s
              ++ replicate (registered real_time_performance s) data))
  ∧ (is_current s (RealTimePerformanceData.session_id data) = false →
       performanceData (on_real_time_performance data s) = performanceData s
       ∧ performanceData (deliver (RealTimePerformanceEvent data) s)
         = performanceData s).
Proof.
  intros Hs. pose proof (performanceData_bounded s Hs) as Hlen.
  split; [|split; [|split]].
  - apply (performanceData_bounded _ (reachable_step (Emit _) s Hs)).
  - by apply on_real_time_performance_bounded.
  - intros Hc. split.
    + by apply on_real_time_performance_current.
    + by apply deliver_performance_current.
  - intros Hc. split.
    + unfold on_real_time_performance. by rewrite Hc.
    + rewrite (deliver_elsewhere _ (RealTimePerformanceData.session_id data)); [done|done|].
      unfold is_current in Hc. by apply bool_decide_eq_false in Hc.
Qed.

Lemma performance_buffer_bounded_witness :
  length (performanceData
            (deliver (RealTimePerformanceEvent (Scenario.sample_of "bench-1"))
               Scenario.running)) ≤ 100.
Proof.
  refine (proj1 (performance_buffer_bounded (Scenario.sample_of "bench-1")
                   Scenario.running _)).
  apply (reachable_step
           (Call (Scenario.accept "bench-1" Running)
              (StartBenchmarkSuite (JsObject useBenchmarkStore.default_config)))).
  apply (reachable_step (Call (Scenario.accept "bench-1" Running)
                           (SetupEventListeners 7))).
  apply reachable_init.
Defined.

(** ** C9: [updateConfig] *)

(** C9.  [updateConfig] merges at the top level only: a section the argument
    does not have keeps its stored value; a section the argument has is
    replaced by the argument's value as a whole, so a field that the
    supplied section does not have is gone afterwards, whether or not the
    stored section had it.  Nothing else in the store changes. *)
Theorem updateConfig_shallow_merge
    (newConfig : gmap string JsVal) (s : useBenchmarkStore.State) (name : string) :
  let s' := useBenchmarkStore.updateConfig newConfig s in
  (newConfig !! name = None →
     useBenchmarkStore.config s' !! name = useBenchmarkStore.config s !! name)
  ∧ (∀ section, newConfig !! name = Some section →
       useBenchmarkStore.config s' !! name = Some section)
  ∧ (∀ props field, newConfig !! name = Some (JsObject props) →
       props !! field = None →
       opt_get (useBenchmarkStore.section_of (useBenchmarkStore.config s') name) field
       = JsUndefined)
  ∧ useBenchmarkStore.currentResults s' = useBenchmarkStore.currentResults s
  ∧ useBenchmarkStore.testHistory s' = useBenchmarkStore.testHistory s
  ∧ useBenchmarkStore.isTestRunning s' = useBenchmarkStore.isTestRunning s
  ∧ useBenchmarkStore.testProgress s' = useBenchmarkStore.testProgress s.
Proof.
  simpl. unfold spread2. split; [|split; [|split]]; [| | |done].
  - intros Hnone. by rewrite lookup_union_r.
  - intros section Hsome. by rewrite (lookup_union_Some_l _ _ _ _ Hsome).
  - intros props field Hsome Hfield. unfold useBenchmarkStore.section_of.
    rewrite (lookup_union_Some_l _ _ _ _ Hsome). simpl. by rewrite Hfield.
Qed.

Lemma updateConfig_shallow_merge_witness :
  useBenchmarkStore.config
    (useBenchmarkStore.updateConfig
       {[ "cpuTest" := JsObject {[ "enabled" := JsBool false ]} ]}
       useBenchmarkStore.init) !! "memoryTest"
  = useBenchmarkStore.default_config !! "memoryTest"
  ∧ opt_get
      (useBenchmarkStore.section_of
         (useBenchmarkStore.config
            (useBenchmarkStore.updateConfig
               {[ "cpuTest" := JsObject {[ "enabled" := JsBool false ]} ]}
               useBenchmarkStore.init)) "cpuTest") "duration"
    = JsUndefined.
Proof.
  split.
  - refine (proj1 (updateConfig_shallow_merge
             {[ "cpuTest" := JsObject {[ "enabled" := JsBool false ]} ]}
             useBenchmarkStore.init "memoryTest") _).
    reflexivity.
  - destruct (updateConfig_shallow_merge
                {[ "cpuTest" := JsObject {[ "enabled" := JsBool false ]} ]}
                useBenchmarkStore.init "cpuTest") as (_ & _ & Hdropped & _).
    exact (Hdropped {[ "enabled" := JsBool false ]} "duration" eq_refl eq_refl).
Defined.

(** ** C10: [handleTauriError] *)

(** C10.  [handleTauriError] is declared to return a string, and for every
    input it should; the code misses the conversion of [error.message]: for
    the rejection reason whose [message] is the number 42 it returns that
    number, not a string. *)
Lemma handleTauriError_returns_a_number :
  handleTauriError (JsObject {[ "message" := JsNumber (Qc_of_Z 42) ]})
    = JsNumber (Qc_of_Z 42)
  ∧ is_string (handleTauriError (JsObject {[ "message" := JsNumber (Qc_of_Z 42) ]}))
    = false.
Proof. by vm_compute. Qed.

(** What the code of [handleTauriError] does, case by case: the input
    itself when it is a string, the value of its [message] when that value
    is truthy, the fixed text otherwise (in particular for [null] and
    [undefined]); the result is a string unless a truthy [message] is not
    one, which is where the declared result type is broken. *)
Lemma handleTauriError_cases (input : JsVal) :
  (∀ text, input = JsString text → handleTauriError input = JsString text)
  ∧ (is_string input = false → truthy (opt_get input "message") = true →
       handleTauriError input = opt_get input "message")
  ∧ (is_string input = false → truthy (opt_get input "message") = false →
       handleTauriError input = JsString "未知错误")
  ∧ handleTauriError JsNull = JsString "未知错误"
  ∧ handleTauriError JsUndefined = JsString "未知错误"
  ∧ (is_string (handleTauriError input) = true
     ↔ is_string input = true
       ∨ truthy (opt_get input "message") = false
       ∨ is_string (opt_get input "message") = true).
Proof.
  split; [by intros text ->|].
  split; [by intros Hs Ht; destruct input; simpl in *; try done; rewrite Ht|].
  split; [by intros Hs Ht; destruct input; simpl in *; try done; rewrite Ht|].
  split; [done|]. split; [done|].
  destruct input as [| | | | |props]; simpl; try tauto.
  unfold handleTauriError. simpl.
  destruct (truthy (default JsUndefined (props !! "message"))) eqn:Ht; simpl.
  - split; [by intros ?; right; right | intros [?|[?|?]]; done].
  - split; [by intros ?; right; left | done].
Qed.

Lemma handleTauriError_cases_witness :
  handleTauriError Scenario.SessionNotFoundError = JsString "session not found".
Proof.
  destruct (handleTauriError_cases Scenario.SessionNotFoundError)
    as (_ & Hmessage & _).
  exact (Hmessage eq_refl eq_refl).
Defined.

(** * Further properties of the front end *)

(** ** Which promises can be rejected *)

(** X1.  Of all the operations of the composable, only
    [startBenchmarkSuite] can hand a rejected promise to its caller, and
    only when the back end rejects the start command; it is then rejected
    with the reason of the back end, and the session and the status are what
    they were. *)
Theorem only_start_rejects (invoke : Backend) (op : Operation) (s : State) :
  (rejects invoke op s = true
   ↔ ∃ config reason, op = StartBenchmarkSuite config
       ∧ invoke _ (start_benchmark_suite config) = Rejected reason)
  ∧ (∀ config reason,
       invoke _ (start_benchmark_suite config) = Rejected reason →
       (startBenchmarkSuite invoke config s).2 = Rejected reason
       ∧ currentSession (startBenchmarkSuite invoke config s).1 = currentSession s
       ∧ testStatus (startBenchmarkSuite invoke config s).1 = testStatus s
       ∧ error (startBenchmarkSuite invoke config s).1 = handleTauriError reason).
Proof.
  split.
  - split.
    + destruct op; simpl; unfold_ops; try (by repeat case_match).
      destruct (invoke _ (start_benchmark_suite config)) as [sid|reason] eqn:Hr;
        [done|]. intros _. by exists config, reason.
    + intros (config & reason & -> & Hr). simpl. unfold_ops. by rewrite Hr.
  - intros config reason Hr. unfold_ops. by rewrite Hr.
Qed.

Lemma only_start_rejects_witness :
  (startBenchmarkSuite (Scenario.refuse Scenario.InvalidStateError)
     (JsObject useBenchmarkStore.default_config) Scenario.completed).2
  = Rejected Scenario.InvalidStateError.
Proof.
  destruct (only_start_rejects (Scenario.refuse Scenario.InvalidStateError)
              Cleanup Scenario.completed) as [_ Hstart].
  exact (proj1 (Hstart (JsObject useBenchmarkStore.default_config)
                  Scenario.InvalidStateError eq_refl)).
Defined.

(** ** Invariants of the composable *)

(** X2.  Between two actions the loading flag is never left set: every
    operation that raises it lowers it again, whether the back end fulfils
    or rejects. *)
Theorem isLoading_never_stuck (s : State) : reachable s → isLoading s = false.
Proof.
  induction 1 as [|a s Hs IH]; [done|].
  destruct a as [invoke op|ev]; simpl.
  - destruct op; unfold_ops; split_cases.
  - apply (deliver_preserves (λ s', isLoading s' = false)); [done|].
    intros s' Hs'. destruct ev; unfold_handlers; split_cases.
Qed.

Lemma reachable_run (history : list Action) (s : State) :
  reachable s → reachable (run history s).
Proof.
  revert s. induction history as [|a history IH]; intros s Hs; [done|].
  rewrite run_cons. by apply IH, reachable_step.
Qed.

Lemma isLoading_never_stuck_witness :
  isLoading (run Walkthrough.to_completed init) = false.
Proof. apply isLoading_never_stuck, reachable_run, reachable_init. Defined.

Lemma handle_no_session (ev : Event) (s : State) :
  currentSession s = None →
  handle ev s = s ∨ ∃ data, handle ev s = set_monitoringData (Some data) s.
Proof.
  intros Hnone. destruct (event_session ev) as [sid|] eqn:Hev.
  - left. apply (handle_elsewhere ev sid); [done|]. by rewrite Hnone.
  - right. destruct ev; try done. by eexists.
Qed.

Lemma segments_run_cons (segment : Segment) (segments : list Segment) (s : State) :
  segments_run (segment :: segments) s
  = segments_run segments (segment_step segment s).
Proof. reflexivity. Qed.

Lemma segments_run_app (first second : list Segment) (s : State) :
  segments_run (first ++ second) s = segments_run second (segments_run first s).
Proof. unfold segments_run. by rewrite foldl_app. Qed.

Lemma interleaved_run (segments : list Segment) (s : State) :
  interleaved s → interleaved (segments_run segments s).
Proof.
  revert s. induction segments as [|segment segments IH]; intros s Hs; [done|].
  rewrite segments_run_cons. by apply IH, interleaved_step.
Qed.

Lemma setup_is_recordings (names : list EventName) (s : State) :
  set_eventManager (foldl EventListenerManager.addListener (eventManager s) names) s
  = segments_run (ListenerRecorded <$> names) s.
Proof.
  revert s. induction names as [|name names IH]; intros s.
  - by destruct s.
  - rewrite fmap_cons, segments_run_cons, <- IH. by destruct s.
Qed.

(** An operation that nothing interrupts is the run of its segments. *)
Lemma call_is_segments (invoke : Backend) (op : Operation) (s : State) :
  call invoke op s = segments_run (segments_of invoke op s) s.
Proof.
  destruct op; simpl; unfold_ops; repeat case_match; try reflexivity.
  - unfold segments_run. simpl.
    match goal with Hc : is_current _ _ = _ |- _ => by rewrite Hc end.
  - unfold segments_run. simpl.
    match goal with Hc : is_current _ _ = _ |- _ => by rewrite Hc end.
  - apply setup_is_recordings.
Qed.

(** The delivery of an event is a run of callbacks. *)
Lemma deliver_is_callbacks (ev : Event) (s : State) :
  ∃ times, deliver ev s = segments_run (replicate times (CallbackRuns ev)) s.
Proof.
  unfold deliver. generalize (eventManager s). intros names. revert s.
  induction names as [|name names IH]; intros s; [by exists 0|].
  simpl. case_bool_decide.
  - destruct (IH (handle ev s)) as [times ->]. by exists (S times).
  - apply IH.
Qed.

(** The states reached by operations and events that run one after the
    other are among the interleaved ones. *)
Lemma reachable_interleaved (s : State) : reachable s → interleaved s.
Proof.
  induction 1 as [|a s Hs IH]; [apply interleaved_init|].
  destruct a as [invoke op|ev]; simpl.
  - rewrite call_is_segments. by apply interleaved_run.
  - destruct (deliver_is_callbacks ev s) as [times ->]. by apply interleaved_run.
Qed.

(** X3.  However the operations, [cleanup] and the callbacks interleave at
    their [await]s, while there is no current session the status is Pending
    or Cancelled (Cancelled when a cancel command is answered after
    [cleanup] has run), there are no results, the two buffers are empty and
    the progress fields are reset. *)
Theorem no_session_nothing_shown (s : State) :
  interleaved s →
  currentSession s = None →
  (testStatus s = Pending ∨ testStatus s = Cancelled)
  ∧ testResults s = None
  ∧ performanceData s = [] ∧ warnings s = []
  ∧ overall (progress s) = 0%Qc ∧ current (progress s) = 0%Qc
  ∧ currentTest (progress s) = "" ∧ message (progress s) = "".
Proof.
  induction 1 as [|segment s Hs IH].
  { intros _. split; [by left|]. by repeat split. }
  destruct segment as [|[?|?]|[?|?]|[?|?]|[?|?]|[?|?]|target [?|?]|[?|?]|[?|?]
                       |?|?| |ev];
    simpl; try exact IH; try (intros Hnone; discriminate Hnone).
  - intros Hnone. destruct (IH Hnone) as (_ & Hrest). split; [by right|exact Hrest].
  - destruct (is_current s target) eqn:Hcur; [|exact IH].
    intros Hnone. simpl in Hnone. apply is_current_true in Hcur. congruence.
  - intros _. split; [by left|]. by repeat split.
  - intros Hnone. rewrite handle_currentSession in Hnone.
    destruct (handle_no_session ev s Hnone) as [->|[data ->]]; by apply IH.
Qed.

Lemma no_session_nothing_shown_witness :
  currentSession (segments_run cleanup_overtakes_cancel init) = None
  ∧ testStatus (segments_run cleanup_overtakes_cancel init) = Cancelled
  ∧ warnings (segments_run cleanup_overtakes_cancel init) = [].
Proof.
  split; [by vm_compute|]. split; [by vm_compute|].
  destruct (no_session_nothing_shown (segments_run cleanup_overtakes_cancel init))
    as (_ & _ & _ & Hwarnings & _).
  - apply interleaved_run, interleaved_init.
  - by vm_compute.
  - exact Hwarnings.
Defined.

Lemma Forall_slice_last {A} (P : A → Prop) (n : nat) (l : list A) :
  Forall P l → Forall P (slice_last n l).
Proof. unfold slice_last. apply Forall_drop. Qed.

(** X4.  The two buffers never mix sessions: every sample in
    [performanceData] and every warning in [warnings] carries the id of the
    current session. *)
Theorem buffers_belong_to_session (s : State) :
  reachable s →
  Forall (λ d, currentSession s = Some (RealTimePerformanceData.session_id d))
         (performanceData s)
  ∧ Forall (λ w, currentSession s = Some (TestWarningEvent.session_id w))
           (warnings s).
Proof.
  induction 1 as [|a s Hs IH]; [by split|].
  destruct a as [invoke op|ev]; simpl.
  - destruct IH as [IHp IHw].
    destruct op; unfold_ops; repeat case_match; simpl; by split.
  - apply (deliver_preserves
             (λ s', Forall (λ d, currentSession s'
                                 = Some (RealTimePerformanceData.session_id d))
                           (performanceData s')
                    ∧ Forall (λ w, currentSession s'
                                   = Some (TestWarningEvent.session_id w))
                             (warnings s'))); [done|].
    clear. intros s' [Hp Hw].
    destruct ev as [data|data|data|data|data|data|data]; unfold_handlers;
      repeat case_match; simpl; try (by split).
    + split; [|done]. apply Forall_slice_last, Forall_app. split; [done|].
      apply Forall_singleton. by apply is_current_true.
    + split; [|done]. apply Forall_app. split; [done|].
      apply Forall_singleton. by apply is_current_true.
    + split; [done|]. apply Forall_app. split; [done|].
      apply Forall_singleton. by apply is_current_true.
Qed.

Lemma buffers_belong_to_session_witness :
  Forall (λ w, currentSession (run Walkthrough.to_completed init)
               = Some (TestWarningEvent.session_id w))
         (warnings (run Walkthrough.to_completed init)).
Proof.
  refine (proj2 (buffers_belong_to_session (run Walkthrough.to_completed init) _)).
  apply reachable_run, reachable_init.
Defined.

(** ** Listeners *)

Lemma registered_add (name added : EventName) (m : list EventName) :
  length (filter (λ n, n = name) (m ++ [added])%list)
  = length (filter (λ n, n = name) m) + (if decide (added = name) then 1 else 0).
Proof.
  rewrite list.filter_app, length_app. f_equal.
  unfold filter. simpl. by case_decide.
Qed.

Lemma deliver_unheard (ev : Event) (s : State) :
  registered (event_name ev) s = 0 → deliver ev s = s.
Proof.
  unfold registered, deliver.
  generalize (eventManager s). intros names. revert s.
  induction names as [|name names IH]; intros s Hnone; [done|].
  unfold filter in Hnone. simpl in *. case_bool_decide as Hname.
  - by rewrite decide_True in Hnone by done.
  - rewrite decide_False in Hnone by done. by apply IH.
Qed.

(** X5.  An event for which no listener is registered is lost: the state
    stays as it is.  This is so for every event before the listeners are set
    up, and for every event after [cleanup]. *)
Theorem unheard_events_are_lost (ev : Event) (s : State) :
  (registered (event_name ev) s = 0 → deliver ev s = s)
  ∧ deliver ev init = init
  ∧ deliver ev (cleanup s) = cleanup s.
Proof.
  split; [apply deliver_unheard|]. split; by apply deliver_unheard.
Qed.

Lemma unheard_events_are_lost_witness :
  registered test_warning init = 0
  ∧ deliver (TestError Scenario.cpu_failed) (cleanup Scenario.running)
    = cleanup Scenario.running.
Proof.
  split; [reflexivity|].
  exact (proj2 (proj2 (unheard_events_are_lost (TestError Scenario.cpu_failed)
                         Scenario.running))).
Defined.

(** X6.  Setting the listeners up once more adds one more listener for
    every event, and a warning for the current session is appended once for
    each listener registered for it: after two set-ups every warning is
    recorded twice. *)
Theorem listeners_pile_up (name : EventName) (data : TestWarningEvent.t) (s : State) :
  registered name (setupEventListeners 7 s) = S (registered name s)
  ∧ (is_current s (TestWarningEvent.session_id data) = true →
     warnings (deliver (TestWarning data) s)
     = (warnings s ++ replicate (registered test_warning s) data)%list).
Proof.
  split.
  - unfold registered, setupEventListeners, EventListenerManager.addListener, push,
      EventListenerManager.t.
    simpl. rewrite !registered_add.
    destruct name; repeat case_decide; try congruence; lia.
  - intros Hc. unfold deliver, registered.
    generalize (eventManager s). intros names. revert s Hc.
    induction names as [|name' names IH]; intros s Hc.
    + simpl. by rewrite app_nil_r.
    + simpl. unfold filter. simpl. case_bool_decide as Hname.
      * subst name'. rewrite decide_True by done. simpl.
        rewrite IH.
        -- unfold on_test_warning. rewrite Hc. simpl. unfold push.
           by rewrite <- app_assoc.
        -- unfold on_test_warning. by rewrite Hc.
      * rewrite decide_False by done. by apply IH.
Qed.

Lemma listeners_pile_up_witness :
  warnings (deliver (TestWarning
                       (TestWarningEvent.mk "bench-1" "cpu" "temperature" "hot" Low))
              Scenario.running)
  = [TestWarningEvent.mk "bench-1" "cpu" "temperature" "hot" Low].
Proof.
  refine (proj2 (listeners_pile_up test_warning
                   (TestWarningEvent.mk "bench-1" "cpu" "temperature" "hot" Low)
                   Scenario.running) _).
  reflexivity.
Defined.

(** ** What stays during a session *)

Lemma step_within_session (a : Action) (s : State) :
  within_session a = true →
  currentSession (step a s) = currentSession s
  ∧ warnings s `prefix_of` warnings (step a s).
Proof.
  intros Hin. destruct a as [invoke op|ev]; simpl.
  - destruct op; try done; unfold_ops; repeat case_match; by simpl.
  - apply (deliver_preserves
             (λ s', currentSession s' = currentSession s
                    ∧ warnings s `prefix_of` warnings s')); [done|].
    intros s' [Hsid Hpre]. rewrite handle_currentSession. split; [done|].
    destruct ev; unfold_handlers; repeat case_match; simpl; try done.
    by apply prefix_app_r.
Qed.

(** X7.  Over a history without start and cleanup the current session stays
    the same and warnings are only ever appended: the warnings held at the
    beginning are a prefix of those held at the end (unlike the performance
    buffer, the list is never cut). *)
Theorem warnings_only_grow (history : list Action) (s : State) :
  Forall (λ a, within_session a = true) history →
  currentSession (run history s) = currentSession s
  ∧ warnings s `prefix_of` warnings (run history s).
Proof.
  revert s. induction history as [|a history IH]; intros s Hall; [done|].
  inversion Hall as [|a0 history0 Ha Hrest]; subst.
  rewrite run_cons.
  destruct (step_within_session a s Ha) as [Hsid Hpre].
  destruct (IH (step a s) Hrest) as [Hsid' Hpre'].
  split; [congruence|]. by etrans.
Qed.

Lemma warnings_only_grow_witness :
  warnings Scenario.running
  `prefix_of`
  warnings (run [Emit (TestError Scenario.cpu_failed);
                 Call (Scenario.refuse Scenario.InvalidStateError) CancelBenchmark]
              Scenario.running).
Proof.
  refine (proj2 (warnings_only_grow _ Scenario.running _)).
  by repeat constructor.
Defined.

(** ** The status query *)

(** X9.  The status query for another session hands the answer to the
    caller and leaves the state alone; without a session id, or with an
    empty one, it asks for the current session and stores the answer as
    the displayed status; with no session at all it sends no command and
    returns [undefined]. *)
Theorem status_query_cases (invoke : Backend) (s : State) :
  (∀ sid status, sid ≠ "" → currentSession s ≠ Some sid →
     invoke _ (get_test_status sid) = Fulfilled status →
     getTestStatus invoke (Some sid) s = (s, Fulfilled (Some status)))
  ∧ (∀ sid status, truthy_session s = Some sid →
     invoke _ (get_test_status sid) = Fulfilled status →
     getTestStatus invoke None s
     = (set_testStatus status s, Fulfilled (Some status)))
  ∧ getTestStatus invoke (Some "") s = getTestStatus invoke None s
  ∧ (truthy_session s = None → getTestStatus invoke None s = (s, Fulfilled None)).
Proof.
  split; [|split; [|split]].
  - intros sid status Hne Hother Hr. unfold getTestStatus, targetSessionId.
    rewrite bool_decide_eq_false_2 by done.
    unfold TauriApiService.getTestStatus. rewrite Hr.
    unfold is_current. by rewrite bool_decide_eq_false_2.
  - intros sid status Hs Hr. unfold getTestStatus, targetSessionId.
    rewrite Hs. unfold TauriApiService.getTestStatus. rewrite Hr.
    unfold is_current. rewrite bool_decide_eq_true_2; [done|].
    unfold truthy_session in Hs. destruct (currentSession s); [|done].
    by case_bool_decide; simplify_eq.
  - done.
  - intros Hs. unfold getTestStatus, targetSessionId. by rewrite Hs.
Qed.

Lemma status_query_cases_witness :
  getTestStatus (Scenario.accept "bench-1" Failed) (Some "bench-0") Scenario.running
  = (Scenario.running, Fulfilled (Some Failed)).
Proof.
  refine (proj1 (status_query_cases (Scenario.accept "bench-1" Failed)
                   Scenario.running) "bench-0" Failed _ _ eq_refl);
    by vm_compute.
Defined.

(** ** Cleaning the finished sessions *)

(** X10.  [cleanupCompletedSessions] returns the count of the back end
    whenever the clean-up command is fulfilled, also when the refresh of the
    session list that follows is rejected (the list is then stale and the
    error is stored); when the clean-up command itself is rejected no
    refresh is attempted and the caller gets [undefined]. *)
Theorem cleanupCompletedSessions_cases (invoke : Backend) (s : State) :
  (∀ count sessions,
     invoke _ cleanup_completed_sessions = Fulfilled count →
     invoke _ get_all_test_sessions = Fulfilled sessions →
     cleanupCompletedSessions invoke s
     = (set_allSessions sessions s, Fulfilled (Some count)))
  ∧ (∀ count reason,
     invoke _ cleanup_completed_sessions = Fulfilled count →
     invoke _ get_all_test_sessions = Rejected reason →
     cleanupCompletedSessions invoke s
     = (set_error (handleTauriError reason) s, Fulfilled (Some count)))
  ∧ (∀ reason,
     invoke _ cleanup_completed_sessions = Rejected reason →
     cleanupCompletedSessions invoke s
     = (set_error (handleTauriError reason) s, Fulfilled None)).
Proof.
  split; [|split].
  - intros count sessions Hc Hl. unfold_ops. by rewrite Hc, Hl.
  - intros count reason Hc Hl. unfold_ops. by rewrite Hc, Hl.
  - intros reason Hc. unfold_ops. by rewrite Hc.
Qed.

Lemma cleanupCompletedSessions_cases_witness :
  cleanupCompletedSessions (Scenario.refuse Scenario.SessionNotFoundError)
    Scenario.running
  = (set_error (handleTauriError Scenario.SessionNotFoundError) Scenario.running,
     Fulfilled None).
Proof.
  exact (proj2 (proj2 (cleanupCompletedSessions_cases
                         (Scenario.refuse Scenario.SessionNotFoundError)
                         Scenario.running))
           Scenario.SessionNotFoundError eq_refl).
Defined.

(** ** The stored error *)

(** X11.  What [handleTauriError] returns is truthy, so that the error
    banner shows, for every input but one: the empty string is returned as
    it is. *)
Theorem handleTauriError_truthy (input : JsVal) :
  truthy (handleTauriError input) = false ↔ input = JsString "".
Proof.
  destruct input as [| | | |text|props]; simpl; try (split; done).
  - rewrite bool_decide_eq_false. split.
    + intros Hnn. f_equal. by destruct (decide (text = "")).
    + intros [= ->]. by intros ?.
  - unfold handleTauriError. simpl.
    destruct (truthy (default JsUndefined (props !! "message"))) eqn:Ht;
      [by rewrite Ht|done].
Qed.

Lemma handleTauriError_truthy_witness :
  truthy (handleTauriError (JsString "")) = false.
Proof. exact (proj2 (handleTauriError_truthy (JsString "")) eq_refl). Defined.

(** X13.  A success does not clear an earlier error: when the back end
    fulfils every command, only [initializeSystemInfo],
    [startBenchmarkSuite] and [cleanup] reset the stored error to [null];
    every other operation leaves it as it was. *)
Theorem error_outlives_success (invoke : Backend) (op : Operation) (s : State) :
  (∀ A (c : Command A), is_rejected (invoke A c) = false) →
  error (call invoke op s)
  = match op with
    | InitializeSystemInfo | StartBenchmarkSuite _ | Cleanup => JsNull
    | _ => error s
    end.
Proof.
  intros Hok.
  destruct op; unfold_ops; repeat case_match; simpl; try reflexivity;
    match goal with
    | Hr : _ ?A ?c = Rejected _ |- _ =>
        specialize (Hok A c); rewrite Hr in Hok; discriminate Hok
    end.
Qed.

Lemma error_outlives_success_witness :
  error (call (Scenario.accept "bench-1" Running) PauseBenchmark
           (pauseBenchmark (Scenario.refuse Scenario.InvalidStateError)
              Scenario.running).1)
  = error (pauseBenchmark (Scenario.refuse Scenario.InvalidStateError)
             Scenario.running).1.
Proof.
  refine (error_outlives_success (Scenario.accept "bench-1" Running) PauseBenchmark
            _ _).
  intros A c. by destruct c.
Defined.

(** ** Leaving the view *)

(** X12.  [cleanup] does not restore the initial state: it leaves the
    system information, the session list, the loading flag, the monitoring
    data and the estimated remaining time as they are, and resets the rest;
    it is idempotent. *)
Theorem cleanup_restores (s : State) :
  (cleanup s = init
   ↔ systemInfo s = None ∧ allSessions s = [] ∧ isLoading s = false
     ∧ monitoringData s = None ∧ estimatedTimeRemaining (progress s) = None)
  ∧ cleanup (cleanup s) = cleanup s.
Proof.
  destruct s as [info sid status results sessions loading err
                 [ov cur test msg eta] mon perf warn mgr].
  split; [|by vm_compute].
  unfold init. cbv [cleanup]. simpl. split.
  - intros Heq. injection Heq as Hinfo Hsessions Hloading Heta Hmon.
    by repeat split.
  - intros (-> & -> & -> & -> & Heta). simpl in Heta. by subst.
Qed.

Lemma cleanup_restores_witness : cleanup (cleanup init) = init.
Proof.
  refine (proj2 (proj1 (cleanup_restores (cleanup init))) _).
  by repeat split.
Defined.

(** ** The monitoring timer *)

(** X14.  A tick of the monitoring timer changes nothing but the monitoring
    data; it does nothing at all once the status is no longer Running, and
    a rejected poll is silent: not even the stored error changes. *)
Theorem monitoring_tick_is_silent (invoke : Backend) (s : State) :
  set_monitoringData (monitoringData s) (BenchmarkSuite.monitoringTick invoke s)
  = set_monitoringData (monitoringData s) s
  ∧ (testStatus s ≠ Running → BenchmarkSuite.monitoringTick invoke s = s)
  ∧ (∀ reason, invoke _ get_system_monitoring_data = Rejected reason →
     BenchmarkSuite.monitoringTick invoke s = s)
  ∧ (∀ data, testStatus s = Running →
     invoke _ get_system_monitoring_data = Fulfilled data →
     monitoringData (BenchmarkSuite.monitoringTick invoke s) = Some data).
Proof.
  unfold BenchmarkSuite.monitoringTick, getSystemMonitoringData,
    TauriApiService.getSystemMonitoringData.
  split; [|split; [|split]].
  - by repeat case_match.
  - intros Hnot. by rewrite bool_decide_eq_false_2.
  - intros reason Hr. rewrite Hr. by case_bool_decide.
  - intros data Hrun Hr. by rewrite Hr, bool_decide_eq_true_2.
Qed.

Lemma monitoring_tick_is_silent_witness :
  BenchmarkSuite.monitoringTick (Scenario.accept "bench-1" Running) Scenario.completed
  = Scenario.completed.
Proof.
  refine (proj1 (proj2 (monitoring_tick_is_silent (Scenario.accept "bench-1" Running)
                          Scenario.completed)) _).
  by vm_compute.
Defined.

(** ** The configuration store *)

Lemma store_run_cons (a : StoreAction) (history : list StoreAction)
    (s : useBenchmarkStore.State) :
  store_run (a :: history) s = store_run history (store_step a s).
Proof. reflexivity. Qed.

(** X15.  Whatever is done to the store, the current results are the last
    entry of the test history (and there are none while the history is
    empty). *)
Theorem currentResults_is_last (history : list StoreAction) :
  useBenchmarkStore.currentResults (store_run history useBenchmarkStore.init)
  = list.last (useBenchmarkStore.testHistory (store_run history useBenchmarkStore.init)).
Proof.
  assert (Hgen : ∀ s,
            useBenchmarkStore.currentResults s = list.last (useBenchmarkStore.testHistory s) →
            useBenchmarkStore.currentResults (store_run history s)
            = list.last (useBenchmarkStore.testHistory (store_run history s))).
  { induction history as [|a history IH]; intros s Hs; [done|].
    rewrite store_run_cons. apply IH.
    destruct a; simpl; try done. unfold push. by rewrite list.last_snoc. }
  by apply Hgen.
Qed.

(** X16.  Two updates of the configuration in a row are one update with the
    two arguments merged, the later one winning; an update with an empty
    object, with the stored configuration, or repeated, changes nothing
    more. *)
Theorem updateConfig_composes (first second : gmap string JsVal)
    (s : useBenchmarkStore.State) :
  useBenchmarkStore.updateConfig second (useBenchmarkStore.updateConfig first s)
  = useBenchmarkStore.updateConfig (spread2 first second) s
  ∧ useBenchmarkStore.updateConfig ∅ s = s
  ∧ useBenchmarkStore.updateConfig (useBenchmarkStore.config s) s = s
  ∧ useBenchmarkStore.updateConfig first (useBenchmarkStore.updateConfig first s)
    = useBenchmarkStore.updateConfig first s.
Proof.
  destruct s as [cfg results history running progress].
  unfold useBenchmarkStore.updateConfig, spread2. simpl.
  split; [|split; [|split]]; f_equal.
  - by rewrite (assoc_L (∪)).
  - by rewrite (left_id_L ∅ (∪)).
  - by rewrite (idemp_L (∪)).
  - by rewrite (assoc_L (∪)), (idemp_L (∪)).
Qed.

(** X17.  After any history of store actions the configuration is the one
    at the beginning overridden by the merge of all the updates, and the
    test history is the one at the beginning followed by every recorded
    result in order: nothing is ever removed from it. *)
Theorem store_after_history (history : list StoreAction)
    (s : useBenchmarkStore.State) :
  useBenchmarkStore.config (store_run history s)
  = spread2 (useBenchmarkStore.config s) (merged history)
  ∧ useBenchmarkStore.testHistory (store_run history s)
    = (useBenchmarkStore.testHistory s ++ recorded history)%list.
Proof.
  revert s. induction history as [|a history IH]; intros s.
  - simpl. unfold spread2. by rewrite (left_id_L ∅ (∪)), app_nil_r.
  - rewrite store_run_cons. destruct (IH (store_step a s)) as [-> ->].
    destruct a; simpl; try done.
    + split; [|done]. unfold spread2. by rewrite (assoc_L (∪)).
    + split; [done|]. unfold push. by rewrite <- app_assoc.
Qed.

(** ** The uptime shown in the suite view *)

Lemma uptime_rem (seconds divisor : Z) :
  (0 ≤ seconds)%Z → (0 < divisor)%Z → Z.rem seconds divisor = (seconds mod divisor)%Z.
Proof. intros. by apply Z.rem_mod_nonneg. Qed.

(** X18.  For a whole, non-negative number of seconds that is a safe integer
    (at most 2^53 - 1, where the arithmetic on doubles is the arithmetic on
    integers) [formatUptime] shows minutes only below one hour, hours and
    minutes below one day, and days, hours and minutes from one day on; the
    hours shown are below 24, the minutes shown below 60, and what is shown
    accounts for the uptime up to less than a minute. *)
Theorem formatUptime_ranges (seconds : Z) :
  (0 ≤ seconds ≤ 9007199254740991)%Z →
  ((seconds < 3600)%Z →
     BenchmarkSuite.formatUptime seconds
     = BenchmarkSuite.decimal (seconds / 60) +:+ "分钟")
  ∧ ((3600 ≤ seconds < 86400)%Z →
     BenchmarkSuite.formatUptime seconds
     = BenchmarkSuite.decimal (seconds / 3600) +:+ "小时 "
       +:+ BenchmarkSuite.decimal (seconds mod 3600 / 60) +:+ "分钟")
  ∧ ((86400 ≤ seconds)%Z →
     BenchmarkSuite.formatUptime seconds
     = BenchmarkSuite.decimal (seconds / 86400) +:+ "天 "
       +:+ BenchmarkSuite.decimal (seconds mod 86400 / 3600) +:+ "小时 "
       +:+ BenchmarkSuite.decimal (seconds mod 3600 / 60) +:+ "分钟")
  ∧ (0 ≤ seconds mod 86400 / 3600 < 24)%Z
  ∧ (0 ≤ seconds mod 3600 / 60 < 60)%Z
  ∧ (0 ≤ seconds - (86400 * (seconds / 86400) + 3600 * (seconds mod 86400 / 3600)
                    + 60 * (seconds mod 3600 / 60)) < 60)%Z.
Proof.
  intros [Hpos Hsafe]. unfold BenchmarkSuite.formatUptime.
  rewrite !uptime_rem by lia.
  split; [|split; [|split; [|split; [|split]]]].
  - intros Hlt.
    rewrite bool_decide_eq_false_2 by (Z.div_mod_to_equations; lia).
    rewrite bool_decide_eq_false_2 by (Z.div_mod_to_equations; lia).
    do 2 f_equal. Z.div_mod_to_equations; lia.
  - intros Hlt.
    rewrite bool_decide_eq_false_2 by (Z.div_mod_to_equations; lia).
    rewrite bool_decide_eq_true_2 by (Z.div_mod_to_equations; lia).
    do 2 f_equal. Z.div_mod_to_equations; lia.
  - intros Hlt. by rewrite bool_decide_eq_true_2 by (Z.div_mod_to_equations; lia).
  - Z.div_mod_to_equations; lia.
  - Z.div_mod_to_equations; lia.
  - Z.div_mod_to_equations; lia.
Qed.

Lemma formatUptime_ranges_witness :
  BenchmarkSuite.formatUptime 93784 = "1天 2小时 3分钟".
Proof.
  destruct (formatUptime_ranges 93784) as (_ & _ & Hdays & _); [lia|].
  rewrite Hdays by lia. by vm_compute.
Defined.

(** X19.  [formatUptime] has a resolution of one minute: for a whole,
    non-negative number of seconds the text is the one of the uptime
    rounded down to the minute. *)
Theorem formatUptime_drops_seconds (seconds : Z) :
  (0 ≤ seconds)%Z →
  BenchmarkSuite.formatUptime seconds
  = BenchmarkSuite.formatUptime (60 * (seconds / 60)).
Proof.
  intros Hpos. unfold BenchmarkSuite.formatUptime.
  rewrite !uptime_rem by (try (Z.div_mod_to_equations; lia); lia).
  replace (60 * (seconds / 60) / 86400)%Z with (seconds / 86400)%Z
    by (Z.div_mod_to_equations; lia).
  replace ((60 * (seconds / 60)) mod 86400 / 3600)%Z
    with (seconds mod 86400 / 3600)%Z by (Z.div_mod_to_equations; lia).
  replace ((60 * (seconds / 60)) mod 3600 / 60)%Z
    with (seconds mod 3600 / 60)%Z by (Z.div_mod_to_equations; lia).
  done.
Qed.

Lemma formatUptime_drops_seconds_witness :
  BenchmarkSuite.formatUptime 3719 = BenchmarkSuite.formatUptime (60 * (3719 / 60)).
Proof. apply formatUptime_drops_seconds. lia. Defined.

(** X20.  For a negative whole number of seconds [formatUptime] never shows
    days or hours: the text is a single count of minutes between -60 and 0,
    the remainder keeping the sign of the uptime. *)
Theorem formatUptime_negative (seconds : Z) :
  (seconds < 0)%Z →
  BenchmarkSuite.formatUptime seconds
  = BenchmarkSuite.decimal (Z.rem seconds 3600 / 60) +:+ "分钟"
  ∧ (-60 ≤ Z.rem seconds 3600 / 60 ≤ 0)%Z.
Proof.
  intros Hneg. unfold BenchmarkSuite.formatUptime.
  assert (H1 : (-86400 < Z.rem seconds 86400 ≤ 0)%Z)
    by (Z.quot_rem_to_equations; lia).
  assert (H2 : (-3600 < Z.rem seconds 3600 ≤ 0)%Z)
    by (Z.quot_rem_to_equations; lia).
  split.
  - rewrite bool_decide_eq_false_2 by (Z.div_mod_to_equations; lia).
    by rewrite bool_decide_eq_false_2 by (Z.div_mod_to_equations; lia).
  - Z.div_mod_to_equations; lia.
Qed.

Lemma formatUptime_negative_witness :
  BenchmarkSuite.formatUptime (-61) = "-2分钟".
Proof.
  destruct (formatUptime_negative (-61)) as [-> _]; [lia|]. by vm_compute.
Defined.

(** ** A failed listener set-up *)

(** X8.  When the set-up of the listeners fails before the test-complete
    listener is registered (at most four listeners are in place), no event
    changes the status any more: a session that was started stays Running
    whatever the back end emits. *)
Theorem status_stuck_without_completion_listeners
    (registered_listeners : nat) (events : list Event) (s : State) :
  registered_listeners ≤ 4 →
  eventManager s = take registered_listeners listened_events →
  testStatus (run (Emit <$> events) s) = testStatus s.
Proof.
  intros Hfew Hmgr. revert s Hmgr.
  induction events as [|ev events IH]; intros s Hmgr; [done|].
  rewrite fmap_cons, run_cons. simpl. rewrite IH.
  - destruct (decide (status_neutral (Emit ev) = true)) as [Hn|Hn].
    + by apply (step_neutral (Emit ev)).
    + rewrite deliver_unheard; [done|]. unfold registered. rewrite Hmgr.
      destruct registered_listeners as [|[|[|[|[|?]]]]]; [| | | | |lia];
        by destruct ev.
  - by rewrite deliver_eventManager.
Qed.

Lemma status_stuck_without_completion_listeners_witness :
  testStatus
    (run (Emit <$> [TestComplete Scenario.cpu_failed;
                    BenchmarkComplete Scenario.suite_succeeded])
       (call (Scenario.accept "bench-1" Running)
          (StartBenchmarkSuite (JsObject useBenchmarkStore.default_config))
          (setupEventListeners 3 init)))
  = Running.
Proof.
  refine (status_stuck_without_completion_listeners 3 _ _ _ _); [lia|reflexivity].
Defined.

(** ** Which session the controls address *)

(** X21.  Cancel, pause and resume send their command for the current
    session and for no other: two back ends that answer alike for that
    session give the same result; and when the id of the current session is
    empty (or there is none) they send nothing and change nothing, although
    the status may be Running. *)
Theorem controls_address_current_session (invoke1 invoke2 : Backend) (s : State) :
  (∀ sid, truthy_session s = Some sid →
     (invoke1 _ (cancel_benchmark sid) = invoke2 _ (cancel_benchmark sid) →
      cancelBenchmark invoke1 s = cancelBenchmark invoke2 s)
     ∧ (invoke1 _ (pause_benchmark sid) = invoke2 _ (pause_benchmark sid) →
        pauseBenchmark invoke1 s = pauseBenchmark invoke2 s)
     ∧ (invoke1 _ (resume_benchmark sid) = invoke2 _ (resume_benchmark sid) →
        resumeBenchmark invoke1 s = resumeBenchmark invoke2 s))
  ∧ (currentSession s = None ∨ currentSession s = Some "" →
     cancelBenchmark invoke1 s = (s, Fulfilled ())
     ∧ pauseBenchmark invoke1 s = (s, Fulfilled ())
     ∧ resumeBenchmark invoke1 s = (s, Fulfilled ()))
  ∧ (∀ config,
     invoke1 _ (start_benchmark_suite config) = Fulfilled "" →
     testStatus (startBenchmarkSuite invoke1 config s).1 = Running
     ∧ cancelBenchmark invoke2 (startBenchmarkSuite invoke1 config s).1
       = ((startBenchmarkSuite invoke1 config s).1, Fulfilled ())).
Proof.
  split; [|split].
  - intros sid Hs. unfold_ops. rewrite Hs.
    split; [|split]; intros Heq; by rewrite Heq.
  - intros Hnone.
    assert (Hs : truthy_session s = None).
    { unfold truthy_session. by destruct Hnone as [-> | ->]. }
    unfold_ops. by rewrite Hs.
  - intros config Hr. unfold startBenchmarkSuite, TauriApiService.startBenchmarkSuite.
    rewrite Hr. simpl. split; [reflexivity|].
    apply cancel_no_session. reflexivity.
Qed.

Lemma controls_address_current_session_witness :
  cancelBenchmark (Scenario.refuse Scenario.InvalidStateError) init
  = (init, Fulfilled ()).
Proof.
  destruct (controls_address_current_session
              (Scenario.refuse Scenario.InvalidStateError)
              (Scenario.refuse Scenario.InvalidStateError) init)
    as (_ & Hnone & _).
  exact (proj1 (Hnone (or_introl eq_refl))).
Defined.
